(** * The point-cloud Viewer of [src/index.ts]

    A shallow embedding of the [Viewer] class (and of the page entry point
    that drives it) together with the theorems that settle what the
    specification says about it.

    The class is glue code around a rendering engine, a point-cloud
    loader and the browser.  The embedding keeps the Viewer's own fields
    as a record, keeps what the browser remembers on the Viewer's behalf
    (parent pointers of the DOM nodes involved, registered listeners,
    scheduled frame callbacks) as a second record, keeps the materials of
    the point-cloud objects in a store indexed by object identity, and
    logs every call into the two libraries and into the frame scheduler
    in a call log.  Methods are computations in a state monad with
    exceptions; a promise is the function from the settlement of the
    loader's promise to the reactions that then run. *)

From Stdlib Require Import List String Ascii Bool Arith ZArith NArith QArith Lia.
From Stdlib Require Import Qreduction.
Import ListNotations.

Close Scope Q_scope.
Close Scope Z_scope.

Set Implicit Arguments.

(* ================================================================= *)
(** ** JavaScript values *)

Module JS.

Local Open Scope string_scope.

(** A JavaScript number.  Finite values are kept as exact rationals in
    lowest terms: rounding to a double is not part of the model, and
    the sign of zero is dropped. *)
Inductive number : Type :=
| NaN
| Infinity (negative : bool)
| Finite (q : Q).

Definition isNaN (x : number) : bool :=
  match x with NaN => true | _ => false end.

Definition neg (x : number) : number :=
  match x with
  | NaN => NaN
  | Infinity s => Infinity (negb s)
  | Finite q => Finite (Qred (- q)%Q)
  end.

(** [x - y] on numbers. *)
Definition sub (x y : number) : number :=
  match x, y with
  | NaN, _ | _, NaN => NaN
  | Infinity s, Infinity s' => if Bool.eqb s s' then NaN else Infinity s
  | Infinity s, Finite _ => Infinity s
  | Finite _, Infinity s => Infinity (negb s)
  | Finite a, Finite b => Finite (Qred (a - b)%Q)
  end.

(** Point-cloud objects are referred to by identity. *)
Definition ref := nat.

Inductive value : Type :=
| Undefined
| Num (x : number)
| Str (s : string)
| Obj (o : ref)
| Error (name : string).

Definition TypeError : value := Error "TypeError".
Definition NotFoundError : value := Error "NotFoundError".

(** *** [Number(s)] on a string

    The StringNumericLiteral grammar of the language: optional white
    space around either nothing (which is 0), a signed decimal literal
    with optional fraction and exponent, a signed [Infinity], or an
    unsigned hexadecimal, octal or binary integer.  Anything else is
    [NaN].  A string is a sequence of code units below 256. *)

Definition isStrWhiteSpaceChar (c : ascii) : bool :=
  match nat_of_ascii c with
  | 9 | 10 | 11 | 12 | 13 | 32 | 160 => true
  | _ => false
  end.

Fixpoint dropWhile (p : ascii -> bool) (cs : list ascii) : list ascii :=
  match cs with
  | [] => []
  | c :: cs' => if p c then dropWhile p cs' else cs
  end.

Definition trim (cs : list ascii) : list ascii :=
  rev (dropWhile isStrWhiteSpaceChar (rev (dropWhile isStrWhiteSpaceChar cs))).

(** The value of a digit in the given radix, if it is one. *)
Definition digit (radix : N) (c : ascii) : option N :=
  let n := N_of_ascii c in
  let d :=
    if (48 <=? n)%N && (n <=? 57)%N then Some (n - 48)%N
    else if (97 <=? n)%N && (n <=? 102)%N then Some (n - 87)%N
    else if (65 <=? n)%N && (n <=? 70)%N then Some (n - 55)%N
    else None in
  match d with
  | Some v => if (v <? radix)%N then Some v else None
  | None => None
  end.

(** The longest prefix of digits, read as a numeral, with the number of
    digits read and the rest of the input. *)
Fixpoint digits (radix : N) (acc : N) (len : nat) (cs : list ascii)
  : N * nat * list ascii :=
  match cs with
  | [] => (acc, len, [])
  | c :: cs' =>
    match digit radix c with
    | Some v => digits radix (acc * radix + v)%N (S len) cs'
    | None => (acc, len, cs)
    end
  end.

Definition is_char (c : ascii) (s : string) : bool :=
  String.eqb (String c EmptyString) s.

(** After the exponent indicator: an optional sign and at least one digit,
    up to the end of the input. *)
Definition exponent (cs : list ascii) : option Z :=
  let '(negative, cs1) :=
    match cs with
    | c :: r => if is_char c "-" then (true, r)
                else if is_char c "+" then (false, r) else (false, cs)
    | [] => (false, cs)
    end in
  match digits 10 0 0 cs1 with
  | (e, S _, []) => Some (if negative then - Z.of_N e else Z.of_N e)%Z
  | _ => None
  end.

(** [m * 10 ^ e] as a rational in lowest terms. *)
Definition scale10 (m : N) (e : Z) : Q :=
  Qred (if (0 <=? e)%Z
        then Qmake (Z.of_N m * 10 ^ e)%Z 1
        else Qmake (Z.of_N m) (Z.to_pos (10 ^ (- e))%Z)).

Definition StrUnsignedDecimalLiteral (cs : list ascii) : number :=
  if String.eqb (string_of_list_ascii cs) "Infinity" then Infinity false
  else
    let '(ip, ilen, r1) := digits 10 0 0 cs in
    let '(m, flen, r2) :=
      match r1 with
      | c :: r => if is_char c "." then digits 10 ip 0 r else (ip, 0, r1)
      | [] => (ip, 0, r1)
      end in
    match ilen + flen with
    | 0 => NaN
    | S _ =>
      match r2 with
      | [] => Finite (scale10 m (- Z.of_nat flen)%Z)
      | c :: r =>
        if is_char c "e" || is_char c "E"
        then match exponent r with
             | Some e => Finite (scale10 m (e - Z.of_nat flen)%Z)
             | None => NaN
             end
        else NaN
      end
    end.

Definition StrDecimalLiteral (cs : list ascii) : number :=
  match cs with
  | c :: r =>
    if is_char c "-" then neg (StrUnsignedDecimalLiteral r)
    else if is_char c "+" then StrUnsignedDecimalLiteral r
    else StrUnsignedDecimalLiteral cs
  | [] => NaN
  end.

Definition radix_of_prefix (c : ascii) : option N :=
  if is_char c "x" || is_char c "X" then Some 16%N
  else if is_char c "o" || is_char c "O" then Some 8%N
  else if is_char c "b" || is_char c "B" then Some 2%N
  else None.

Definition StrNumericLiteral (cs : list ascii) : number :=
  match cs with
  | z :: p :: r =>
    match (if is_char z "0" then radix_of_prefix p else None) with
    | Some radix =>
      match digits radix 0 0 r with
      | (n, S _, []) => Finite (Qmake (Z.of_N n) 1)
      | _ => NaN
      end
    | None => StrDecimalLiteral cs
    end
  | _ => StrDecimalLiteral cs
  end.

Definition Number (s : string) : number :=
  match trim (list_ascii_of_string s) with
  | [] => Finite 0%Q
  | cs => StrNumericLiteral cs
  end.

End JS.

(* ================================================================= *)
(** ** The data model *)

(** Modelled from the spec: the enumeration of point-rendering shapes is
    declared by the point-cloud library, not by the repository; these are
    the three variants the shape handler names. *)
Inductive PointShape : Type := SQUARE | CIRCLE | PARABOLOID.

(** Modelled from the spec: the enumeration of color modes is declared by
    the point-cloud library; the Viewer names the plain RGB mode and the
    elevation-mapped mode, the others stand for the modes it never
    names. *)
Inductive PointColorType : Type :=
| RGB | COLOR | DEPTH | HEIGHT | INTENSITY | RGB_HEIGHT.

(** The material of a point-cloud object: the four properties the Viewer
    assigns.  [size] and [opacity] hold whatever value is assigned. *)
Record PointCloudMaterial : Type := {
  pointColorType : PointColorType;
  shape : PointShape;
  size : JS.value;
  opacity : JS.value
}.

Definition PointCloudOctree : Type := JS.ref.

(** A DOM node, by identity. *)
Definition Node : Type := nat.

(** The arrow-function properties of the Viewer that are handed out as
    callbacks. *)
Inductive Handler : Type :=
| Hloop | Hresize | HconfigPointsShape | HchangeLayer
| HchangePointsOpacity | HchangePointsSize.

Definition Handler_eqb (a b : Handler) : bool :=
  match a, b with
  | Hloop, Hloop | Hresize, Hresize
  | HconfigPointsShape, HconfigPointsShape | HchangeLayer, HchangeLayer
  | HchangePointsOpacity, HchangePointsOpacity
  | HchangePointsSize, HchangePointsSize => true
  | _, _ => false
  end.

Inductive OrbitControls : Type := TheOrbitControls.

(** The fields of the class that are assigned after construction, and the
    canvas of its renderer.  The renderer, the scene, the camera and the
    loader are constructed once and never reassigned. *)
Record Viewer : Type := {
  targetEl : option Node;
  domElement : Node;
  orbitControls : option OrbitControls;
  pointClouds : list PointCloudOctree;
  prevTime : option JS.number;
  reqAnimationFrameHandle : option nat
}.

(** What the browser holds: the parent of each node, what a selector
    finds below a node, the next fresh node, the listeners on the window
    and on nodes, and the frame callbacks that are scheduled.  Every
    scheduled callback is the Viewer's [loop]. *)
Record Host : Type := {
  parentNode : Node -> option Node;
  querySelector : Node -> string -> option Node;
  nextNode : Node;
  windowListeners : list (string * Handler);
  nodeListeners : list (Node * string * Handler);
  pendingFrames : list nat;
  nextFrame : nat
}.

(** Calls that leave the Viewer: into the frame scheduler, the rendering
    engine and the point-cloud library.  The Viewer's own [update] and
    [render] are logged on entry as well, the way a test spy would. *)
Inductive Call : Type :=
| RequestAnimationFrame (handle : nat)
| CancelAnimationFrame (handle : nat)
| ControlsSet (property : string)
| ControlsUpdate
| CameraSetAspect (el : Node)
| CameraUpdateProjectionMatrix
| RendererSetSize (el : Node)
| RendererClear
| RendererRender
| SceneAdd (pco : PointCloudOctree)
| PotreeLoadPointCloud (fileName : string) (getUrl : string -> string)
| PotreeUpdatePointClouds (pcs : list PointCloudOctree)
| ConsoleError (err : JS.value)
| ViewerUpdate (dt : JS.number)
| ViewerRender.

Record World : Type := {
  viewer : Viewer;
  host : Host;
  materials : PointCloudOctree -> PointCloudMaterial;
  calls : list Call
}.

(* ================================================================= *)
(** ** Computations: state and exceptions *)

Inductive Outcome (A : Type) : Type :=
| Return (a : A)
| Throw (e : JS.value).

Arguments Return {A} a.
Arguments Throw {A} e.

Definition M (A : Type) : Type := World -> Outcome A * World.

Definition ret {A} (a : A) : M A := fun w => (Return a, w).

Definition throw {A} (e : JS.value) : M A := fun w => (Throw e, w).

Definition bind {A B} (m : M A) (k : A -> M B) : M B :=
  fun w =>
    match m w with
    | (Return a, w') => k a w'
    | (Throw e, w') => (Throw e, w')
    end.

Declare Scope js_scope.
Delimit Scope js_scope with js.
Notation "x <- m ;; k" := (bind m (fun x => k))
  (at level 61, m at next level, right associativity) : js_scope.
Notation "m ;; k" := (bind m (fun _ => k))
  (at level 61, right associativity) : js_scope.
Open Scope js_scope.

Definition get : M World := fun w => (Return w, w).

Definition modify (f : World -> World) : M unit := fun w => (Return tt, f w).

(** Dereferencing an optional value: a [TypeError] when it is absent. *)
Definition deref {A} (o : option A) : M A :=
  match o with
  | Some a => ret a
  | None => throw JS.TypeError
  end.

(** *** Field updates *)

Definition set_viewer (v : Viewer) (w : World) : World :=
  {| viewer := v; host := host w; materials := materials w; calls := calls w |}.

Definition set_host (h : Host) (w : World) : World :=
  {| viewer := viewer w; host := h; materials := materials w; calls := calls w |}.

Definition set_materials (m : PointCloudOctree -> PointCloudMaterial) (w : World)
  : World :=
  {| viewer := viewer w; host := host w; materials := m; calls := calls w |}.

Definition log (c : Call) : M unit :=
  modify (fun w =>
    {| viewer := viewer w; host := host w; materials := materials w;
       calls := calls w ++ [c] |}).

Definition set_targetEl (x : option Node) (v : Viewer) : Viewer :=
  {| targetEl := x; domElement := domElement v;
     orbitControls := orbitControls v; pointClouds := pointClouds v;
     prevTime := prevTime v;
     reqAnimationFrameHandle := reqAnimationFrameHandle v |}.

Definition set_orbitControls (x : option OrbitControls) (v : Viewer) : Viewer :=
  {| targetEl := targetEl v; domElement := domElement v;
     orbitControls := x; pointClouds := pointClouds v;
     prevTime := prevTime v;
     reqAnimationFrameHandle := reqAnimationFrameHandle v |}.

Definition set_pointClouds (x : list PointCloudOctree) (v : Viewer) : Viewer :=
  {| targetEl := targetEl v; domElement := domElement v;
     orbitControls := orbitControls v; pointClouds := x;
     prevTime := prevTime v;
     reqAnimationFrameHandle := reqAnimationFrameHandle v |}.

Definition set_prevTime (x : option JS.number) (v : Viewer) : Viewer :=
  {| targetEl := targetEl v; domElement := domElement v;
     orbitControls := orbitControls v; pointClouds := pointClouds v;
     prevTime := x;
     reqAnimationFrameHandle := reqAnimationFrameHandle v |}.

Definition set_reqAnimationFrameHandle (x : option nat) (v : Viewer) : Viewer :=
  {| targetEl := targetEl v; domElement := domElement v;
     orbitControls := orbitControls v; pointClouds := pointClouds v;
     prevTime := prevTime v;
     reqAnimationFrameHandle := x |}.

(** [this.f] and [this.f = x]. *)
Definition this {A} (f : Viewer -> A) : M A := fun w => (Return (f (viewer w)), w).

Definition assign (f : Viewer -> Viewer) : M unit :=
  modify (fun w => set_viewer (f (viewer w)) w).

Definition set_parentNode (child : Node) (p : option Node) (h : Host) : Host :=
  {| parentNode := fun n => if Nat.eqb n child then p else parentNode h n;
     querySelector := querySelector h; nextNode := nextNode h;
     windowListeners := windowListeners h; nodeListeners := nodeListeners h;
     pendingFrames := pendingFrames h; nextFrame := nextFrame h |}.

Definition set_nextNode (n : Node) (h : Host) : Host :=
  {| parentNode := parentNode h;
     querySelector := querySelector h; nextNode := n;
     windowListeners := windowListeners h; nodeListeners := nodeListeners h;
     pendingFrames := pendingFrames h; nextFrame := nextFrame h |}.

Definition set_windowListeners (l : list (string * Handler)) (h : Host) : Host :=
  {| parentNode := parentNode h;
     querySelector := querySelector h; nextNode := nextNode h;
     windowListeners := l; nodeListeners := nodeListeners h;
     pendingFrames := pendingFrames h; nextFrame := nextFrame h |}.

Definition set_nodeListeners (l : list (Node * string * Handler)) (h : Host)
  : Host :=
  {| parentNode := parentNode h;
     querySelector := querySelector h; nextNode := nextNode h;
     windowListeners := windowListeners h; nodeListeners := l;
     pendingFrames := pendingFrames h; nextFrame := nextFrame h |}.

Definition set_frames (pending : list nat) (next : nat) (h : Host) : Host :=
  {| parentNode := parentNode h;
     querySelector := querySelector h; nextNode := nextNode h;
     windowListeners := windowListeners h; nodeListeners := nodeListeners h;
     pendingFrames := pending; nextFrame := next |}.

Definition browser (f : Host -> Host) : M unit :=
  modify (fun w => set_host (f (host w)) w).

(* ================================================================= *)
(** ** What the browser and the libraries do *)

(** [parent.appendChild(child)]: the child moves below the parent. *)
Definition appendChild (parent child : Node) : M unit :=
  browser (set_parentNode child (Some parent)).

(** [parent.removeChild(child)]: a [NotFoundError] unless the child is a
    child of that parent. *)
Definition removeChild (parent child : Node) : M unit :=
  w <- get;;
  match parentNode (host w) child with
  | Some p =>
    if Nat.eqb p parent then browser (set_parentNode child None)
    else throw JS.NotFoundError
  | None => throw JS.NotFoundError
  end.

(** [el.cloneNode(true)]: a fresh node, which has no parent and no
    listeners.  The copies of the descendants are not represented: the
    Viewer never looks below the clone. *)
Definition cloneNode (el : Node) : M Node :=
  w <- get;;
  let clone := nextNode (host w) in
  browser (set_nextNode (S clone));;
  ret clone.

(** [parent.replaceChild(node, child)] for a child of that parent. *)
Definition replaceChild (parent node child : Node) : M unit :=
  browser (fun h => set_parentNode child None (set_parentNode node (Some parent) h)).

Definition same_listener (type : string) (f : Handler) (l : string * Handler)
  : bool :=
  String.eqb (fst l) type && Handler_eqb (snd l) f.

(** [window.addEventListener(type, f)]: a listener that is already
    registered is not registered twice. *)
Definition window_addEventListener (type : string) (f : Handler) : M unit :=
  browser (fun h =>
    if existsb (same_listener type f) (windowListeners h) then h
    else set_windowListeners (windowListeners h ++ [(type, f)]) h).

Definition window_removeEventListener (type : string) (f : Handler) : M unit :=
  browser (fun h =>
    set_windowListeners
      (filter (fun l => negb (same_listener type f l)) (windowListeners h)) h).

Definition same_node_listener (el : Node) (type : string) (f : Handler)
  (l : Node * string * Handler) : bool :=
  Nat.eqb (fst (fst l)) el && String.eqb (snd (fst l)) type
  && Handler_eqb (snd l) f.

Definition addEventListener (el : Node) (type : string) (f : Handler) : M unit :=
  browser (fun h =>
    if existsb (same_node_listener el type f) (nodeListeners h) then h
    else set_nodeListeners (nodeListeners h ++ [(el, type, f)]) h).

(** [requestAnimationFrame(this.loop)]: the callback is scheduled under
    a fresh handle, which is returned. *)
Definition requestAnimationFrame : M nat :=
  w <- get;;
  let handle := nextFrame (host w) in
  browser (set_frames (pendingFrames (host w) ++ [handle]) (S handle));;
  log (RequestAnimationFrame handle);;
  ret handle.

Definition cancelAnimationFrame (handle : nat) : M unit :=
  browser (fun h =>
    set_frames (filter (fun x => negb (Nat.eqb x handle)) (pendingFrames h))
               (nextFrame h) h);;
  log (CancelAnimationFrame handle).

(** *** Promises

    The only promise that is not derived from another one is the
    loader's.  A promise is kept as what happens once the loader's
    promise settles: the reactions that run, as a computation, and the
    way the promise itself settles. *)

Inductive Settlement (A : Type) : Type :=
| Fulfilled (a : A)
| Rejected (reason : JS.value).

Arguments Fulfilled {A} a.
Arguments Rejected {A} reason.

Definition Promise (A : Type) : Type :=
  Settlement PointCloudOctree -> M (Settlement A).

(** Running a reaction: its result fulfils the derived promise, an
    exception rejects it. *)
Definition react {A} (m : M A) : M (Settlement A) :=
  fun w =>
    match m w with
    | (Return a, w') => (Return (Fulfilled a), w')
    | (Throw e, w') => (Return (Rejected e), w')
    end.

(** [p.then(onFulfilled)]: without a rejection handler a rejection is
    passed on as it is. *)
Definition then_ {A B} (p : Promise A) (onFulfilled : A -> M B) : Promise B :=
  fun o =>
    r <- p o;;
    match r with
    | Fulfilled a => react (onFulfilled a)
    | Rejected e => ret (Rejected e)
    end.

(** [p.catch(onRejected)]. *)
Definition catch_ {A} (p : Promise A) (onRejected : JS.value -> M A) : Promise A :=
  fun o =>
    r <- p o;;
    match r with
    | Fulfilled a => ret (Fulfilled a)
    | Rejected e => react (onRejected e)
    end.

(** [potree.loadPointCloud(fileName, getUrl)]: the call is logged; the
    promise it returns settles as the loader decides. *)
Definition loadPointCloud (fileName : string) (getUrl : string -> string)
  : M (Promise PointCloudOctree) :=
  log (PotreeLoadPointCloud fileName getUrl);;
  ret (fun o => ret o).

(** [l.forEach(f)] *)
Fixpoint forEach {A} (l : list A) (f : A -> M unit) : M unit :=
  match l with
  | [] => ret tt
  | x :: l' => f x;; forEach l' f
  end.

(** [p.material.f = x] *)
Definition set_material (f : PointCloudMaterial -> PointCloudMaterial)
  (p : PointCloudOctree) : M unit :=
  modify (fun w =>
    set_materials
      (fun q => if Nat.eqb q p then f (materials w q) else materials w q) w).

Definition set_pointColorType (x : PointColorType) (m : PointCloudMaterial)
  : PointCloudMaterial :=
  {| pointColorType := x; shape := shape m; size := size m; opacity := opacity m |}.

Definition set_shape (x : PointShape) (m : PointCloudMaterial)
  : PointCloudMaterial :=
  {| pointColorType := pointColorType m; shape := x; size := size m;
     opacity := opacity m |}.

Definition set_size (x : JS.value) (m : PointCloudMaterial) : PointCloudMaterial :=
  {| pointColorType := pointColorType m; shape := shape m; size := x;
     opacity := opacity m |}.

Definition set_opacity (x : JS.value) (m : PointCloudMaterial)
  : PointCloudMaterial :=
  {| pointColorType := pointColorType m; shape := shape m; size := size m;
     opacity := x |}.

(** The event a handler receives: [e.target.value]. *)
Record EventTarget : Type := { value : string }.
Record Event : Type := { target : EventTarget }.

(* ================================================================= *)
(** ** The Viewer *)

(** [new Viewer()], given the canvas its renderer creates. *)
Definition new_Viewer (canvas : Node) : Viewer :=
  {| targetEl := None; domElement := canvas;
     orbitControls := Some TheOrbitControls; pointClouds := [];
     prevTime := None; reqAnimationFrameHandle := None |}.

(** [this.orbitControls.p = ...] *)
Definition orbitControls_set (property : string) : M unit :=
  c <- this orbitControls;;
  _ <- deref c;;
  log (ControlsSet property).

(** [this.orbitControls.update()] *)
Definition orbitControls_update : M unit :=
  c <- this orbitControls;;
  _ <- deref c;;
  log ControlsUpdate.

Definition resize : M unit :=
  t <- this targetEl;;
  el <- deref t;;
  log (CameraSetAspect el);;
  log CameraUpdateProjectionMatrix;;
  log (RendererSetSize el).

(** [targetEl.querySelector(selector).addEventListener(type, f)] *)
Definition listen (el : Node) (selector type : string) (f : Handler) : M unit :=
  w <- get;;
  control <- deref (querySelector (host w) el selector);;
  addEventListener control type f.

Definition initialize (targetEl' : option Node) : M unit :=
  cur <- this targetEl;;
  match cur, targetEl' with
  | Some _, _ | None, None => ret tt
  | None, Some el =>
    assign (set_targetEl (Some el));;
    canvas <- this domElement;;
    appendChild el canvas;;
    orbitControls_set "enableDamping";;
    orbitControls_set "dampingFactor";;
    orbitControls_set "screenSpacePanning";;
    orbitControls_set "minDistance";;
    orbitControls_set "maxDistance";;
    orbitControls_set "maxPolarAngle";;
    resize;;
    window_addEventListener "resize" Hresize;;
    listen el "input[name=opacity]" "input" HchangePointsOpacity;;
    listen el "input[name=size]" "input" HchangePointsSize;;
    listen el "select[name=layers]" "change" HchangeLayer;;
    listen el "select" "change" HconfigPointsShape;;
    _ <- requestAnimationFrame;;
    ret tt
  end.

Definition destroy : M unit :=
  t <- this targetEl;;
  el <- deref t;;
  canvas <- this domElement;;
  removeChild el canvas;;
  targetElClone <- cloneNode el;;
  w <- get;;
  parent <- deref (parentNode (host w) el);;
  replaceChild parent targetElClone el;;
  assign (set_targetEl None);;
  assign (set_orbitControls None);;
  window_removeEventListener "resize" Hresize;;
  assign (set_pointClouds []);;
  h <- this reqAnimationFrameHandle;;
  match h with
  | Some handle => cancelAnimationFrame handle
  | None => ret tt
  end.

(** The success continuation of [load]. *)
Definition load_onFulfilled (pco : PointCloudOctree) : M JS.value :=
  set_material (set_pointColorType RGB) pco;;
  log (SceneAdd pco);;
  pcs <- this pointClouds;;
  assign (set_pointClouds (pcs ++ [pco]));;
  ret JS.Undefined.

Definition load (fileName baseUrl : string) : M (Promise JS.value) :=
  p <- loadPointCloud fileName (fun url => baseUrl ++ url)%string;;
  ret (then_ p load_onFulfilled).

Definition update (dt : JS.number) : M unit :=
  log (ViewerUpdate dt);;
  orbitControls_update;;
  pcs <- this pointClouds;;
  log (PotreeUpdatePointClouds pcs).

Definition render : M unit :=
  log ViewerRender;;
  log RendererClear;;
  log RendererRender.

Definition loop (time : JS.number) : M unit :=
  handle <- requestAnimationFrame;;
  assign (set_reqAnimationFrameHandle (Some handle));;
  prevTime' <- this prevTime;;
  assign (set_prevTime (Some time));;
  match prevTime' with
  | None => ret tt
  | Some t0 =>
    orbitControls_update;;
    update (JS.sub time t0);;
    render
  end.

(** [this.pointClouds.forEach(p => p.material.f = x)] *)
Definition pointClouds_forEach (f : PointCloudMaterial -> PointCloudMaterial)
  : M unit :=
  pcs <- this pointClouds;;
  forEach pcs (set_material f).

Definition configPointsShape (e : Event) : M unit :=
  let value := value (target e) in
  if String.eqb value "Square" then pointClouds_forEach (set_shape SQUARE)
  else if String.eqb value "Circle" then pointClouds_forEach (set_shape CIRCLE)
  else if String.eqb value "Paraboloid"
       then pointClouds_forEach (set_shape PARABOLOID)
  else ret tt.

Definition changeLayer (e : Event) : M unit :=
  let value := value (target e) in
  if String.eqb value "1" then pointClouds_forEach (set_pointColorType RGB)
  else if String.eqb value "2"
       then pointClouds_forEach (set_pointColorType RGB_HEIGHT)
  else ret tt.

Definition changePointsOpacity (e : Event) : M unit :=
  let value := value (target e) in
  if negb (JS.isNaN (JS.Number value)) && negb (String.eqb value "") then
    pointClouds_forEach (set_opacity (JS.Str value))
  else ret tt.

Definition changePointsSize (e : Event) : M unit :=
  let value := value (target e) in
  if negb (JS.isNaN (JS.Number value)) && negb (String.eqb value "") then
    pointClouds_forEach (set_size (JS.Str value))
  else ret tt.

(** *** The page's entry point

    [target] is what [document.getElementById("target")] found.  The
    promise that is returned is the end of the chain
    [viewer.load(...).then(...).catch(...)]. *)
Definition index (target : option Node) : M (Promise JS.value) :=
  initialize target;;
  p <- load "cloud.js"
         "https://cdn.rawgit.com/potree/potree/develop/pointclouds/lion_takanawa/";;
  ret (catch_ (then_ p (fun pco => ret JS.Undefined))
              (fun err => log (ConsoleError err);; ret JS.Undefined)).

(** *** The browser calling back *)

(** The frame scheduled under [handle] comes due at [time]: if it is
    still pending it is taken off the list and [loop] runs.  An exception
    that leaves the callback is the outcome. *)
Definition animationFrame (handle : nat) (time : JS.number) : M unit :=
  w <- get;;
  if existsb (Nat.eqb handle) (pendingFrames (host w)) then
    browser (fun h =>
      set_frames (filter (fun x => negb (Nat.eqb x handle)) (pendingFrames h))
                 (nextFrame h) h);;
    loop time
  else ret tt.

(** A call that returns a promise, with the loader's promise settling
    right after it. *)
Definition settle {A} (m : M (Promise A)) (o : Settlement PointCloudOctree)
  : M (Settlement A) :=
  p <- m;; p o.

Definition run {A} (m : M A) (w : World) : World := snd (m w).
Definition outcome {A} (m : M A) (w : World) : Outcome A := fst (m w).

(** The promise [load] returns. *)
Definition load_promise : Promise JS.value :=
  then_ (fun o => ret o) load_onFulfilled.

(** The state [destroy] leaves when it completes. *)
Definition destroyed (w : World) (el parent : Node) : World :=
  let h := host w in
  let canvas := domElement (viewer w) in
  {| viewer :=
       {| targetEl := None; domElement := canvas; orbitControls := None;
          pointClouds := []; prevTime := prevTime (viewer w);
          reqAnimationFrameHandle := reqAnimationFrameHandle (viewer w) |};
     host :=
       {| parentNode := fun n =>
            if Nat.eqb n el then None
            else if Nat.eqb n (nextNode h) then Some parent
            else if Nat.eqb n canvas then None
            else parentNode h n;
          querySelector := querySelector h;
          nextNode := S (nextNode h);
          windowListeners :=
            filter (fun l => negb (same_listener "resize" Hresize l))
                   (windowListeners h);
          nodeListeners := nodeListeners h;
          pendingFrames :=
            match reqAnimationFrameHandle (viewer w) with
            | Some handle =>
              filter (fun x => negb (Nat.eqb x handle)) (pendingFrames h)
            | None => pendingFrames h
            end;
          nextFrame := nextFrame h |};
     materials := materials w;
     calls :=
       match reqAnimationFrameHandle (viewer w) with
       | Some handle => calls w ++ [CancelAnimationFrame handle]
       | None => calls w
       end |}.

(* ================================================================= *)
(** ** A page to run the Viewer on *)

(** The target element is node 1, a child of node 0.  It contains the
    opacity input (2), the size input (3), the shape select (4) and the
    layer select (5).  Node 6 is the canvas of the renderer. *)
Definition page : Host :=
  {| parentNode := fun n =>
       match n with
       | 1 => Some 0
       | 2 | 3 | 4 | 5 => Some 1
       | _ => None
       end;
     querySelector := fun el selector =>
       if Nat.eqb el 1 then
         if String.eqb selector "input[name=opacity]" then Some 2
         else if String.eqb selector "input[name=size]" then Some 3
         else if String.eqb selector "select[name=layers]" then Some 5
         else if String.eqb selector "select" then Some 4
         else None
       else None;
     nextNode := 7;
     windowListeners := [];
     nodeListeners := [];
     pendingFrames := [];
     nextFrame := 1 |}.

(** The material the loader hands out in the examples. *)
Definition material0 : PointCloudMaterial :=
  {| pointColorType := INTENSITY; shape := CIRCLE;
     size := JS.Num (JS.Finite 1%Q); opacity := JS.Num (JS.Finite 1%Q) |}.

Definition world0 : World :=
  {| viewer := new_Viewer 6; host := page;
     materials := fun _ => material0; calls := [] |}.

(** The page after [initialize], and after two point clouds were loaded. *)
Definition initialized : World := run (initialize (Some 1)) world0.

Definition loaded : World :=
  run (load_onFulfilled 11) (run (load_onFulfilled 10) initialized).

Definition event (v : string) : Event := {| target := {| value := v |} |}.

(** The page after two point clouds were loaded and the first frame
    came due at time 0. *)
Definition running : World := run (animationFrame 1 (JS.Finite 0%Q)) loaded.

(** The page when [destroy] ran before the first frame came due, and
    that frame, which [destroy] did not cancel, has then come due at
    time 0. *)
Definition destroyed_early : World :=
  run (animationFrame 1 (JS.Finite 0%Q)) (run destroy initialized).

(** A Viewer into which a point cloud was loaded and which was never
    initialized. *)
Definition unattached : World := run (load_onFulfilled 10) world0.

(** What registering a listener does to the list of those registered:
    nothing if an equal one is there, otherwise it goes to the end. *)
Definition add_listener {A} (same : A -> bool) (x : A) (l : list A) : list A :=
  if existsb same l then l else l ++ [x].

(** The state a complete [initialize] leaves, for a target [el] below
    which the four controls [n1], [n2], [n3] and [n4] are found. *)
Definition initialized_with (w : World) (el n1 n2 n3 n4 : Node) : World :=
  let h := host w in
  let canvas := domElement (viewer w) in
  let frame := nextFrame h in
  {| viewer := set_targetEl (Some el) (viewer w);
     host :=
       {| parentNode := fun n =>
            if Nat.eqb n canvas then Some el else parentNode h n;
          querySelector := querySelector h;
          nextNode := nextNode h;
          windowListeners :=
            add_listener (same_listener "resize" Hresize)
              ("resize"%string, Hresize) (windowListeners h);
          nodeListeners :=
            add_listener (same_node_listener n4 "change" HconfigPointsShape)
              (n4, "change"%string, HconfigPointsShape)
              (add_listener (same_node_listener n3 "change" HchangeLayer)
                 (n3, "change"%string, HchangeLayer)
                 (add_listener (same_node_listener n2 "input" HchangePointsSize)
                    (n2, "input"%string, HchangePointsSize)
                    (add_listener
                       (same_node_listener n1 "input" HchangePointsOpacity)
                       (n1, "input"%string, HchangePointsOpacity)
                       (nodeListeners h))));
          pendingFrames := pendingFrames h ++ [frame];
          nextFrame := S frame |};
     materials := materials w;
     calls := calls w ++
       [ControlsSet "enableDamping"; ControlsSet "dampingFactor";
        ControlsSet "screenSpacePanning"; ControlsSet "minDistance";
        ControlsSet "maxDistance"; ControlsSet "maxPolarAngle";
        CameraSetAspect el; CameraUpdateProjectionMatrix; RendererSetSize el;
        RequestAnimationFrame frame] |}.

(** Two states that differ at most in how the material store is written
    down: the same fields, browser and calls, and the same material for
    every object. *)
Definition same_state (w1 w2 : World) : Prop :=
  viewer w1 = viewer w2 /\ host w1 = host w2 /\ calls w1 = calls w2 /\
  forall p, materials w1 p = materials w2 p.

(** A handler that assigns material properties: it raises no error,
    leaves fields, browser and calls alone, and applies one and the same
    function, taken from the class [F], to the material of every listed
    point cloud and to no other. *)
Definition assigns (h : M unit)
  (F : (PointCloudMaterial -> PointCloudMaterial) -> Prop) : Prop :=
  exists f, F f /\ forall w,
    outcome h w = Return tt /\
    viewer (run h w) = viewer w /\ host (run h w) = host w /\
    calls (run h w) = calls w /\
    forall p, materials (run h w) p =
      if existsb (Nat.eqb p) (pointClouds (viewer w))
      then f (materials w p) else materials w p.

(** The functions that write at most one material property. *)
Definition writes_shape (f : PointCloudMaterial -> PointCloudMaterial) : Prop :=
  (forall m, f m = m) \/ exists x, forall m, f m = set_shape x m.

Definition writes_pointColorType (f : PointCloudMaterial -> PointCloudMaterial)
  : Prop :=
  (forall m, f m = m) \/ exists x, forall m, f m = set_pointColorType x m.

Definition writes_opacity (f : PointCloudMaterial -> PointCloudMaterial) : Prop :=
  (forall m, f m = m) \/ exists x, forall m, f m = set_opacity x m.

Definition writes_size (f : PointCloudMaterial -> PointCloudMaterial) : Prop :=
  (forall m, f m = m) \/ exists x, forall m, f m = set_size x m.

(* ================================================================= *)
(** ** Evaluation of the embedding on examples *)

Example Number_half : JS.Number "0.5" = JS.Finite (1 # 2)%Q.
Proof. reflexivity. Qed.

Example Number_abc : JS.Number "abc" = JS.NaN.
Proof. reflexivity. Qed.

Example Number_empty : JS.Number "" = JS.Finite 0%Q.
Proof. reflexivity. Qed.

Example Number_blank : JS.Number " " = JS.Finite 0%Q.
Proof. reflexivity. Qed.

Example Number_forms :
  JS.Number " 12.50 " = JS.Finite (25 # 2)%Q /\
  JS.Number "-1.5e1" = JS.Finite (-15 # 1)%Q /\
  JS.Number "5." = JS.Finite 5%Q /\
  JS.Number ".5" = JS.Finite (1 # 2)%Q /\
  JS.Number "." = JS.NaN /\
  JS.Number "1e" = JS.NaN /\
  JS.Number "0x1F" = JS.Finite 31%Q /\
  JS.Number "-0x1F" = JS.NaN /\
  JS.Number "0x" = JS.NaN /\
  JS.Number "-Infinity" = JS.Infinity true /\
  JS.Number "1 2" = JS.NaN /\
  JS.Number "0.5px" = JS.NaN.
Proof. repeat split; reflexivity. Qed.

Example initialize_page :
  outcome (initialize (Some 1)) world0 = Return tt /\
  targetEl (viewer initialized) = Some 1 /\
  parentNode (host initialized) 6 = Some 1 /\
  windowListeners (host initialized) = [("resize"%string, Hresize)] /\
  nodeListeners (host initialized) =
    [(2, "input"%string, HchangePointsOpacity);
     (3, "input"%string, HchangePointsSize);
     (5, "change"%string, HchangeLayer);
     (4, "change"%string, HconfigPointsShape)] /\
  pendingFrames (host initialized) = [1] /\
  reqAnimationFrameHandle (viewer initialized) = None.
Proof. repeat split; reflexivity. Qed.

(** The entry point on the example page: a resolved load leaves the
    handle in the list and logs nothing on the console; a rejected load
    leaves the list empty and the reason ends up on the console. *)
Example index_page :
  let ok := settle (index (Some 1)) (Fulfilled 10) in
  let ko := settle (index (Some 1)) (Rejected (JS.Error "NetworkError")) in
  outcome ok world0 = Return (Fulfilled JS.Undefined) /\
  pointClouds (viewer (run ok world0)) = [10] /\
  outcome ko world0 = Return (Fulfilled JS.Undefined) /\
  pointClouds (viewer (run ko world0)) = [] /\
  calls (run ko world0)
    = calls (run (index (Some 1)) world0)
      ++ [ConsoleError (JS.Error "NetworkError")].
Proof.
  repeat match goal with |- _ /\ _ => split | |- _ => intro end;
    vm_compute; reflexivity.
Qed.

Example resolver_concatenates :
  calls (run (load "cloud.js" "http://host/path/") world0) =
    [PotreeLoadPointCloud "cloud.js" (fun url => "http://host/path/" ++ url)%string]
  /\ (fun url => "http://host/path/" ++ url)%string "cloud.js"%string
     = "http://host/path/cloud.js"%string.
Proof. split; reflexivity. Qed.

(* ================================================================= *)
(** ** Lemmas on the building blocks *)

Ltac world w :=
  destruct w as [[t d o pcs pt rh] [pn qs nn wl nl pf nf] m c].

Lemma bind_Return {A B} (m : M A) (k : A -> M B) (w w' : World) (a : A) :
  m w = (Return a, w') -> bind m k w = k a w'.
Proof. intros H. unfold bind. now rewrite H. Qed.

Lemma bind_Throw {A B} (m : M A) (k : A -> M B) (w w' : World) (e : JS.value) :
  m w = (Throw e, w') -> bind m k w = (Throw e, w').
Proof. intros H. unfold bind. now rewrite H. Qed.

Lemma run_outcome {A} (m : M A) (w : World) (a : A) :
  outcome m w = Return a -> m w = (Return a, run m w).
Proof.
  unfold outcome, run. destruct (m w) as [o w']. simpl. now intros ->.
Qed.

Lemma set_material_run f p w :
  set_material f p w =
  (Return tt,
   set_materials
     (fun q => if Nat.eqb q p then f (materials w q) else materials w q) w).
Proof. reflexivity. Qed.

(** Assigning one material property of every point cloud of a list
    changes the materials of the listed objects and nothing else. *)
Lemma forEach_set_material f (Hf : forall m, f (f m) = f m) pcs :
  forall w,
    outcome (forEach pcs (set_material f)) w = Return tt /\
    viewer (run (forEach pcs (set_material f)) w) = viewer w /\
    host (run (forEach pcs (set_material f)) w) = host w /\
    calls (run (forEach pcs (set_material f)) w) = calls w /\
    forall q,
      materials (run (forEach pcs (set_material f)) w) q =
      if existsb (Nat.eqb q) pcs then f (materials w q) else materials w q.
Proof.
  induction pcs as [|p pcs IH]; intros w.
  - repeat split.
  - unfold run, outcome in *. simpl forEach.
    rewrite (@bind_Return _ _ _ _ _ _ _ (set_material_run f p w)).
    specialize (IH (set_materials
      (fun q => if Nat.eqb q p then f (materials w q) else materials w q) w)).
    destruct IH as (Ho & Hv & Hh & Hc & Hm).
    repeat split; try assumption.
    intros q. rewrite Hm. simpl.
    destruct (Nat.eqb q p); simpl.
    + destruct (existsb (Nat.eqb q) pcs); [apply Hf | reflexivity].
    + reflexivity.
Qed.

Lemma existsb_eqb_In (q : nat) (l : list nat) :
  existsb (Nat.eqb q) l = true <-> In q l.
Proof.
  rewrite existsb_exists. split.
  - intros (x & Hx & E). apply Nat.eqb_eq in E. now subst.
  - intros H. exists q. split; [assumption | apply Nat.eqb_refl].
Qed.

Lemma existsb_eqb_not_In (q : nat) (l : list nat) :
  ~ In q l -> existsb (Nat.eqb q) l = false.
Proof.
  intros H. destruct (existsb (Nat.eqb q) l) eqn:E; [|reflexivity].
  apply existsb_eqb_In in E. contradiction.
Qed.

(** What [this.pointClouds.forEach(p => p.material.f = x)] does. *)
Lemma pointClouds_forEach_spec f (Hf : forall m, f (f m) = f m) (w : World) :
  outcome (pointClouds_forEach f) w = Return tt /\
  viewer (run (pointClouds_forEach f) w) = viewer w /\
  host (run (pointClouds_forEach f) w) = host w /\
  calls (run (pointClouds_forEach f) w) = calls w /\
  (forall p, In p (pointClouds (viewer w)) ->
     materials (run (pointClouds_forEach f) w) p = f (materials w p)) /\
  (forall p, ~ In p (pointClouds (viewer w)) ->
     materials (run (pointClouds_forEach f) w) p = materials w p).
Proof.
  destruct (forEach_set_material f Hf (pointClouds (viewer w)) w)
    as (Ho & Hv & Hh & Hc & Hm).
  unfold pointClouds_forEach, run, outcome, this, bind in *.
  repeat split; try assumption.
  - intros p Hp. rewrite Hm.
    now rewrite (proj2 (existsb_eqb_In p _) Hp).
  - intros p Hp. rewrite Hm. now rewrite (existsb_eqb_not_In _ _ Hp).
Qed.

Lemma set_shape_idem x m : set_shape x (set_shape x m) = set_shape x m.
Proof. reflexivity. Qed.

Lemma set_opacity_idem x m : set_opacity x (set_opacity x m) = set_opacity x m.
Proof. reflexivity. Qed.

Lemma set_size_idem x m : set_size x (set_size x m) = set_size x m.
Proof. reflexivity. Qed.

Lemma set_pointColorType_idem x m :
  set_pointColorType x (set_pointColorType x m) = set_pointColorType x m.
Proof. reflexivity. Qed.

(** The test both numeric handlers make on the raw string. *)
Lemma numeric_guard (v : string) :
  negb (JS.isNaN (JS.Number v)) && negb (String.eqb v "") = true <->
  JS.isNaN (JS.Number v) = false /\ v <> ""%string.
Proof.
  rewrite andb_true_iff, !negb_true_iff, String.eqb_neq. reflexivity.
Qed.

(* ================================================================= *)
(** ** The UI event handlers *)

(** C8: the shape handler.  The label "Square" sets the shape of every
    point cloud of the list to the square variant, "Circle" to the circle
    variant and "Paraboloid" to the paraboloid variant, leaving the other
    material properties, the objects outside the list and the rest of the
    state alone; any other label changes nothing at all, and no label
    raises an error. *)
Theorem configPointsShape_spec (e : Event) (w : World) :
  let v := value (target e) in
  let w' := run (configPointsShape e) w in
  outcome (configPointsShape e) w = Return tt /\
  viewer w' = viewer w /\ host w' = host w /\ calls w' = calls w /\
  (forall p, ~ In p (pointClouds (viewer w)) -> materials w' p = materials w p) /\
  (v = "Square"%string -> forall p, In p (pointClouds (viewer w)) ->
     materials w' p = set_shape SQUARE (materials w p)) /\
  (v = "Circle"%string -> forall p, In p (pointClouds (viewer w)) ->
     materials w' p = set_shape CIRCLE (materials w p)) /\
  (v = "Paraboloid"%string -> forall p, In p (pointClouds (viewer w)) ->
     materials w' p = set_shape PARABOLOID (materials w p)) /\
  (v <> "Square"%string -> v <> "Circle"%string -> v <> "Paraboloid"%string ->
     w' = w).
Proof.
  intros v w'. subst w'. unfold configPointsShape. fold v.
  destruct (String.eqb_spec v "Square") as [E1|N1];
    [|destruct (String.eqb_spec v "Circle") as [E2|N2];
      [|destruct (String.eqb_spec v "Paraboloid") as [E3|N3]]].
  - destruct (pointClouds_forEach_spec (set_shape SQUARE)
                (set_shape_idem SQUARE) w) as (Ho & Hv & Hh & Hc & Hin & Hout).
    repeat split; try assumption; try (intros; congruence).
    intros _ p Hp. now apply Hin.
  - destruct (pointClouds_forEach_spec (set_shape CIRCLE)
                (set_shape_idem CIRCLE) w) as (Ho & Hv & Hh & Hc & Hin & Hout).
    repeat split; try assumption; try (intros; congruence).
    intros _ p Hp. now apply Hin.
  - destruct (pointClouds_forEach_spec (set_shape PARABOLOID)
                (set_shape_idem PARABOLOID) w) as (Ho & Hv & Hh & Hc & Hin & Hout).
    repeat split; try assumption; try (intros; congruence).
    intros _ p Hp. now apply Hin.
  - repeat split; intros; congruence.
Qed.

Lemma configPointsShape_witness :
  shape (materials (run (configPointsShape (event "Square")) loaded) 10) = SQUARE /\
  shape (materials (run (configPointsShape (event "Circle")) loaded) 11) = CIRCLE /\
  shape (materials (run (configPointsShape (event "Paraboloid")) loaded) 10)
    = PARABOLOID /\
  run (configPointsShape (event "Hexagon")) loaded = loaded.
Proof.
  split; [|split; [|split]].
  - destruct (configPointsShape_spec (event "Square") loaded)
      as (_ & _ & _ & _ & _ & H & _).
    rewrite (H eq_refl 10 (or_introl eq_refl)). reflexivity.
  - destruct (configPointsShape_spec (event "Circle") loaded)
      as (_ & _ & _ & _ & _ & _ & H & _).
    rewrite (H eq_refl 11 (or_intror (or_introl eq_refl))). reflexivity.
  - destruct (configPointsShape_spec (event "Paraboloid") loaded)
      as (_ & _ & _ & _ & _ & _ & _ & H & _).
    rewrite (H eq_refl 10 (or_introl eq_refl)). reflexivity.
  - destruct (configPointsShape_spec (event "Hexagon") loaded)
      as (_ & _ & _ & _ & _ & _ & _ & _ & H).
    apply H; discriminate.
Defined.

(** C7, as the code has it: the opacity handler and the size handler
    raise no error; when the raw string is not empty and [Number] does not
    make it NaN, the raw string itself, not the number it parses to,
    becomes the opacity (respectively the size) of every point cloud of
    the list, and nothing else changes; when the string is empty or is
    NaN as a number, nothing changes at all. *)
Theorem changePoints_spec (e : Event) (w : World) :
  let v := value (target e) in
  let wo := run (changePointsOpacity e) w in
  let ws := run (changePointsSize e) w in
  outcome (changePointsOpacity e) w = Return tt /\
  outcome (changePointsSize e) w = Return tt /\
  viewer wo = viewer w /\ host wo = host w /\ calls wo = calls w /\
  viewer ws = viewer w /\ host ws = host w /\ calls ws = calls w /\
  (forall p, ~ In p (pointClouds (viewer w)) ->
     materials wo p = materials w p /\ materials ws p = materials w p) /\
  (JS.isNaN (JS.Number v) = false -> v <> ""%string ->
   forall p, In p (pointClouds (viewer w)) ->
     materials wo p = set_opacity (JS.Str v) (materials w p) /\
     materials ws p = set_size (JS.Str v) (materials w p)) /\
  (JS.isNaN (JS.Number v) = true \/ v = ""%string -> wo = w /\ ws = w).
Proof.
  intros v wo ws. subst wo ws. unfold changePointsOpacity, changePointsSize.
  fold v.
  destruct (negb (JS.isNaN (JS.Number v)) && negb (String.eqb v "")) eqn:G.
  - apply numeric_guard in G. destruct G as [G1 G2].
    destruct (pointClouds_forEach_spec (set_opacity (JS.Str v))
                (set_opacity_idem (JS.Str v)) w)
      as (Ho & Hv & Hh & Hc & Hin & Hout).
    destruct (pointClouds_forEach_spec (set_size (JS.Str v))
                (set_size_idem (JS.Str v)) w)
      as (Ho' & Hv' & Hh' & Hc' & Hin' & Hout').
    repeat split; try assumption; auto;
      match goal with H : _ \/ _ |- _ => destruct H; congruence end.
  - assert (N : ~ (JS.isNaN (JS.Number v) = false /\ v <> ""%string)).
    { intros H. apply numeric_guard in H. congruence. }
    repeat split; try reflexivity; exfalso; apply N; now split.
Qed.

Lemma changePoints_witness :
  opacity (materials (run (changePointsOpacity (event "0.5")) loaded) 10)
    = JS.Str "0.5" /\
  size (materials (run (changePointsSize (event "0.5")) loaded) 11)
    = JS.Str "0.5" /\
  run (changePointsOpacity (event "abc")) loaded = loaded /\
  run (changePointsSize (event "")) loaded = loaded.
Proof.
  split; [|split; [|split]].
  - destruct (changePoints_spec (event "0.5") loaded)
      as (_ & _ & _ & _ & _ & _ & _ & _ & _ & H & _).
    assert (N : value (target (event "0.5")) <> ""%string) by discriminate.
    rewrite (proj1 (H eq_refl N 10 (or_introl eq_refl))). reflexivity.
  - destruct (changePoints_spec (event "0.5") loaded)
      as (_ & _ & _ & _ & _ & _ & _ & _ & _ & H & _).
    assert (N : value (target (event "0.5")) <> ""%string) by discriminate.
    rewrite (proj2 (H eq_refl N 11 (or_intror (or_introl eq_refl)))). reflexivity.
  - destruct (changePoints_spec (event "abc") loaded)
      as (_ & _ & _ & _ & _ & _ & _ & _ & _ & _ & H).
    apply (H (or_introl eq_refl)).
  - destruct (changePoints_spec (event "") loaded)
      as (_ & _ & _ & _ & _ & _ & _ & _ & _ & _ & H).
    apply (H (or_intror eq_refl)).
Defined.

(** C7 as the specification words it fails: the raw string "0.5" is not
    empty and parses to the number one half, and the handlers make the
    opacity and the size of a listed point cloud the string "0.5", which
    is not the parsed number. *)
Lemma changePoints_stores_raw_string :
  JS.isNaN (JS.Number "0.5") = false /\
  "0.5"%string <> ""%string /\
  JS.Number "0.5" = JS.Finite (1 # 2)%Q /\
  In 10 (pointClouds (viewer loaded)) /\
  opacity (materials (run (changePointsOpacity (event "0.5")) loaded) 10)
    = JS.Str "0.5" /\
  opacity (materials (run (changePointsOpacity (event "0.5")) loaded) 10)
    <> JS.Num (JS.Number "0.5") /\
  size (materials (run (changePointsSize (event "0.5")) loaded) 10)
    = JS.Str "0.5" /\
  size (materials (run (changePointsSize (event "0.5")) loaded) 10)
    <> JS.Num (JS.Number "0.5").
Proof.
  repeat match goal with |- _ /\ _ => split end;
    try (vm_compute; reflexivity); try (vm_compute; discriminate).
  vm_compute. left. reflexivity.
Qed.

(* ================================================================= *)
(** ** Loading a point cloud *)

(** The call itself only reaches the loader. *)
Lemma load_call (fileName baseUrl : string) (w : World) :
  load fileName baseUrl w =
  (Return load_promise,
   {| viewer := viewer w; host := host w; materials := materials w;
      calls := calls w ++
        [PotreeLoadPointCloud fileName (fun url => baseUrl ++ url)%string] |}).
Proof. reflexivity. Qed.

Lemma load_onFulfilled_run (pco : PointCloudOctree) (w : World) :
  load_onFulfilled pco w =
  (Return JS.Undefined,
   {| viewer := set_pointClouds (pointClouds (viewer w) ++ [pco]) (viewer w);
      host := host w;
      materials := fun q =>
        if Nat.eqb q pco then set_pointColorType RGB (materials w q)
        else materials w q;
      calls := calls w ++ [SceneAdd pco] |}).
Proof. reflexivity. Qed.

Lemma load_promise_fulfilled (pco : PointCloudOctree) (w : World) :
  load_promise (Fulfilled pco) w =
  (Return (Fulfilled JS.Undefined), run (load_onFulfilled pco) w).
Proof. reflexivity. Qed.

Lemma load_promise_rejected (reason : JS.value) (w : World) :
  load_promise (Rejected reason) w = (Return (Rejected reason), w).
Proof. reflexivity. Qed.

(** C1: a successful load.  The call [load(fileName, baseUrl)] returns a
    promise and touches nothing but the loader.  When the loader's promise
    resolves with the handle [pco], in whatever state [w] the Viewer then
    is, the reaction raises no error, sets the color mode of [pco] to
    RGB, adds [pco] to the scene, and appends [pco] to the list of point
    clouds, which so has exactly one entry more; the other material
    properties of [pco], the other objects, the other fields and the
    browser are left alone.  In particular, when nothing happens between
    the call and the resolution the list has one entry more than before
    the call. *)
Theorem load_success (fileName baseUrl : string) (pco : PointCloudOctree)
  (w0 w : World) :
  exists p : Promise JS.value,
    outcome (load fileName baseUrl) w0 = Return p /\
    pointClouds (viewer (run (load fileName baseUrl) w0))
      = pointClouds (viewer w0) /\
    (exists r w',
       p (Fulfilled pco) w = (Return (Fulfilled r), w') /\
       pointColorType (materials w' pco) = RGB /\
       calls w' = calls w ++ [SceneAdd pco] /\
       pointClouds (viewer w') = pointClouds (viewer w) ++ [pco] /\
       List.length (pointClouds (viewer w')) = S (List.length (pointClouds (viewer w))) /\
       materials w' pco = set_pointColorType RGB (materials w pco) /\
       (forall q, q <> pco -> materials w' q = materials w q) /\
       host w' = host w /\
       viewer w' = set_pointClouds (pointClouds (viewer w')) (viewer w)) /\
    List.length (pointClouds
              (viewer (run (p (Fulfilled pco)) (run (load fileName baseUrl) w0))))
      = S (List.length (pointClouds (viewer w0))).
Proof.
  exists load_promise. unfold outcome, run.
  rewrite load_call, !load_promise_fulfilled. simpl fst. simpl snd.
  split; [reflexivity|]. split; [reflexivity|]. split.
  - exists JS.Undefined. eexists. split; [reflexivity|].
    unfold run. rewrite load_onFulfilled_run. simpl.
    rewrite Nat.eqb_refl, length_app. simpl.
    repeat split; try reflexivity.
    + lia.
    + intros q Hq. apply Nat.eqb_neq in Hq. now rewrite Hq.
  - unfold run. rewrite load_onFulfilled_run. simpl.
    rewrite length_app. simpl. lia.
Qed.

(** C2, what the code does: the promise [load] returns is fulfilled with
    [undefined], never with the handle the loader delivered, because the
    success continuation returns nothing.  The continuation the entry
    point chains on it therefore receives [undefined]. *)
Theorem load_resolves_with_undefined (fileName baseUrl : string)
  (pco : PointCloudOctree) (w0 w : World) :
  exists p : Promise JS.value,
    outcome (load fileName baseUrl) w0 = Return p /\
    outcome (p (Fulfilled pco)) w = Return (Fulfilled JS.Undefined) /\
    JS.Undefined <> JS.Obj pco /\
    In pco (pointClouds (viewer (run (p (Fulfilled pco)) w))) /\
    In (SceneAdd pco) (calls (run (p (Fulfilled pco)) w)).
Proof.
  exists load_promise. unfold outcome, run.
  rewrite load_call, load_promise_fulfilled. simpl fst. simpl snd.
  unfold run. rewrite load_onFulfilled_run. simpl.
  repeat split; try discriminate; apply in_or_app; right; left; reflexivity.
Qed.

(** C5: a failed load.  The call touches nothing but the loader, and when
    the loader's promise rejects with [reason], in whatever state [w] the
    Viewer then is, the promise [load] returned rejects with the very same
    [reason] and the whole state is as it was: the list of point clouds,
    the scene (no call is logged), the materials and the browser. *)
Theorem load_rejected (fileName baseUrl : string) (reason : JS.value)
  (w0 w : World) :
  exists p : Promise JS.value,
    load fileName baseUrl w0 =
      (Return p,
       {| viewer := viewer w0; host := host w0; materials := materials w0;
          calls := calls w0 ++
            [PotreeLoadPointCloud fileName (fun url => baseUrl ++ url)%string] |})
    /\ p (Rejected reason) w = (Return (Rejected reason), w).
Proof.
  exists load_promise. split.
  - apply load_call.
  - apply load_promise_rejected.
Qed.

(* ================================================================= *)
(** ** The frame loop *)

Lemma In_app_singleton {A} (x : A) (l : list A) : In x (l ++ [x]).
Proof. apply in_or_app. right. left. reflexivity. Qed.

(** The first thing [loop] does, in every state: a frame is requested,
    its handle is stored, and the time is recorded. *)
Lemma loop_reschedules_first (time : JS.number) (w : World) :
  let h := nextFrame (host w) in
  let w' := run (loop time) w in
  (exists rest, calls w' = calls w ++ RequestAnimationFrame h :: rest) /\
  In h (pendingFrames (host w')) /\
  reqAnimationFrameHandle (viewer w') = Some h /\
  prevTime (viewer w') = Some time.
Proof.
  world w. unfold run, loop. simpl.
  destruct pt as [t0|]; [destruct o|]; simpl.
  - repeat split; try apply In_app_singleton.
    eexists. rewrite <- !app_assoc. reflexivity.
  - repeat split; try apply In_app_singleton.
    exists []. reflexivity.
  - repeat split; try apply In_app_singleton.
    exists []. reflexivity.
Qed.

(** C3, as the code has it.  Every invocation of [loop] first requests
    the next frame (the request is the first call it makes, and it is
    made even when the invocation later fails), stores the handle and
    records the time.  Without a previous time it then returns, and the
    request is the only call it has made: neither [update] nor [render]
    ran.  With a previous time [t0], and as long as the camera controls
    have not been released, it updates the controls, calls [update] with
    the delta [time - t0], which updates the controls and the point
    clouds of the list, and then calls [render], in that order. *)
Theorem loop_spec (time : JS.number) (w : World) :
  let h := nextFrame (host w) in
  let w' := run (loop time) w in
  (exists rest, calls w' = calls w ++ RequestAnimationFrame h :: rest) /\
  In h (pendingFrames (host w')) /\
  reqAnimationFrameHandle (viewer w') = Some h /\
  prevTime (viewer w') = Some time /\
  (prevTime (viewer w) = None ->
     outcome (loop time) w = Return tt /\
     calls w' = calls w ++ [RequestAnimationFrame h]) /\
  (forall t0, prevTime (viewer w) = Some t0 ->
     orbitControls (viewer w) <> None ->
     outcome (loop time) w = Return tt /\
     calls w' = calls w ++
       [RequestAnimationFrame h; ControlsUpdate;
        ViewerUpdate (JS.sub time t0); ControlsUpdate;
        PotreeUpdatePointClouds (pointClouds (viewer w));
        ViewerRender; RendererClear; RendererRender]).
Proof.
  intros h w'.
  destruct (loop_reschedules_first time w) as (H1 & H2 & H3 & H4).
  split; [exact H1|]. split; [exact H2|]. split; [exact H3|].
  split; [exact H4|]. subst h w'. clear H1 H2 H3 H4.
  world w. unfold run, outcome, loop. simpl. split.
  - intros ->. simpl. split; reflexivity.
  - intros t0 -> Ho. destruct o; [|congruence]. simpl.
    split; [reflexivity|]. rewrite <- !app_assoc. reflexivity.
Qed.

Lemma loop_witness :
  outcome (loop (JS.Finite 0%Q)) loaded = Return tt /\
  calls (run (loop (JS.Finite 0%Q)) loaded)
    = calls loaded ++ [RequestAnimationFrame 2] /\
  outcome (loop (JS.Finite (33 # 2)%Q)) running = Return tt /\
  calls (run (loop (JS.Finite (33 # 2)%Q)) running)
    = calls running ++
      [RequestAnimationFrame 3; ControlsUpdate;
       ViewerUpdate (JS.Finite (33 # 2)%Q); ControlsUpdate;
       PotreeUpdatePointClouds [10; 11];
       ViewerRender; RendererClear; RendererRender].
Proof.
  destruct (loop_spec (JS.Finite 0%Q) loaded) as (_ & _ & _ & _ & H0 & _).
  destruct (loop_spec (JS.Finite (33 # 2)%Q) running) as (_ & _ & _ & _ & _ & H1).
  destruct (H0 eq_refl) as [A B].
  assert (C : orbitControls (viewer running) <> None) by discriminate.
  destruct (H1 (JS.Finite 0%Q) eq_refl C) as [D E].
  split; [exact A|]. split; [exact B|]. split; [exact D|]. exact E.
Defined.

(** C3 as the specification words it fails: in the state above a previous
    time is recorded, and the next invocation of [loop] requests a frame
    and then fails with a [TypeError] on the released camera controls,
    without calling [update] or [render]. *)
Lemma loop_after_destroy_throws :
  outcome destroy initialized = Return tt /\
  pendingFrames (host (run destroy initialized)) = [1] /\
  prevTime (viewer destroyed_early) = Some (JS.Finite 0%Q) /\
  outcome (loop (JS.Finite 16%Q)) destroyed_early = Throw JS.TypeError /\
  outcome (animationFrame 2 (JS.Finite 16%Q)) destroyed_early
    = Throw JS.TypeError /\
  calls (run (loop (JS.Finite 16%Q)) destroyed_early)
    = calls destroyed_early ++ [RequestAnimationFrame 3] /\
  ~ In (ViewerUpdate (JS.sub (JS.Finite 16%Q) (JS.Finite 0%Q)))
       (calls (run (loop (JS.Finite 16%Q)) destroyed_early)) /\
  ~ In ViewerRender (calls (run (loop (JS.Finite 16%Q)) destroyed_early)).
Proof.
  repeat match goal with |- _ /\ _ => split end;
    try (vm_compute; reflexivity);
    vm_compute; intros H;
    repeat (destruct H as [H|H]; [discriminate H|]); exact H.
Qed.

(* ================================================================= *)
(** ** Initialization *)

(** Whatever [initialize] does, the target it leaves is the one it found
    or, if none was set and an element was given, that element. *)
Lemma initialize_targetEl (arg : option Node) (w : World) :
  targetEl (viewer (run (initialize arg) w)) =
  match targetEl (viewer w) with
  | Some el => Some el
  | None => arg
  end.
Proof.
  world w. unfold run, initialize. simpl.
  destruct t as [el0|]; [reflexivity|].
  destruct arg as [el|]; [|reflexivity].
  simpl. unfold orbitControls_set, listen, bind, this, deref, get. simpl.
  destruct o; simpl; [|reflexivity].
  repeat match goal with
  | |- context [qs el ?s] => destruct (qs el s); simpl; [|reflexivity]
  | |- context [if ?b then _ else _] => destruct b; simpl
  end; reflexivity.
Qed.

(** C4, as the code has it.  While the target element is set, and also
    when no element is given, [initialize] returns at once and leaves the
    whole state as it is: Viewer fields, DOM, listeners, scheduled frames,
    materials and calls; so the canvas is not attached again, no listener
    is registered again, and with no element given the target stays unset.
    The target is only ever set by an [initialize] that found it unset. *)
Theorem initialize_noop (arg : option Node) (w : World) :
  (targetEl (viewer w) <> None \/ arg = None ->
     initialize arg w = (Return tt, w)) /\
  (arg = None -> targetEl (viewer w) = None ->
     targetEl (viewer (run (initialize arg) w)) = None) /\
  (targetEl (viewer (run (initialize arg) w)) <> targetEl (viewer w) ->
     targetEl (viewer w) = None /\
     targetEl (viewer (run (initialize arg) w)) = arg).
Proof.
  split; [|split].
  - intros H. world w. unfold initialize, bind, this. simpl in *.
    destruct t as [el0|]; [reflexivity|].
    destruct H as [H| ->]; [congruence | reflexivity].
  - intros -> H. rewrite initialize_targetEl, H. reflexivity.
  - rewrite initialize_targetEl.
    destruct (targetEl (viewer w)); [congruence | auto].
Qed.

Lemma initialize_witness :
  initialize (Some 1) initialized = (Return tt, initialized) /\
  initialize None world0 = (Return tt, world0) /\
  targetEl (viewer (run (initialize None) world0)) = None.
Proof.
  split; [|split].
  - apply (proj1 (initialize_noop (Some 1) initialized)).
    left. discriminate.
  - apply (proj1 (initialize_noop None world0)). right. reflexivity.
  - apply (proj1 (proj2 (initialize_noop None world0))); reflexivity.
Defined.

(** C4 as the specification words it fails: the target element of one
    and the same Viewer is set twice.  After [initialize] on the target
    and [destroy], which puts a clone (node 7) in the target's place and
    unsets the target, a second [initialize] on that clone sets the
    target again and attaches the canvas to it, before it fails on the
    released camera controls. *)
Lemma targetEl_set_twice :
  let w1 := run (initialize (Some 1)) world0 in
  let w2 := run destroy w1 in
  let w3 := run (initialize (Some 7)) w2 in
  targetEl (viewer world0) = None /\
  targetEl (viewer w1) = Some 1 /\
  outcome destroy w1 = Return tt /\
  targetEl (viewer w2) = None /\
  parentNode (host w2) 7 = Some 0 /\
  targetEl (viewer w3) = Some 7 /\
  parentNode (host w3) 6 = Some 7 /\
  outcome (initialize (Some 7)) w2 = Throw JS.TypeError.
Proof.
  repeat match goal with |- _ /\ _ => split | |- _ => intro end;
    vm_compute; reflexivity.
Qed.

(* ================================================================= *)
(** ** Tear-down *)

Lemma destroy_needs_target (w : World) :
  targetEl (viewer w) = None -> destroy w = (Throw JS.TypeError, w).
Proof.
  intros H. world w. simpl in H. subst t. reflexivity.
Qed.

(** [destroy] completes exactly when the target is set, the canvas is a
    child of the target and the target has a parent. *)
Lemma destroy_returns (w w' : World) (u : unit) :
  destroy w = (Return u, w') <->
  exists el parent,
    targetEl (viewer w) = Some el /\
    parentNode (host w) (domElement (viewer w)) = Some el /\
    el <> domElement (viewer w) /\
    parentNode (host w) el = Some parent /\
    w' = destroyed w el parent.
Proof.
  destruct u. world w. unfold destroy, destroyed, bind, this, deref. simpl.
  destruct t as [el|]; simpl.
  2:{ split; [discriminate | intros (? & ? & ? & _); discriminate]. }
  unfold removeChild, bind, get. simpl.
  destruct (pn d) as [p|] eqn:Ep; simpl.
  2:{ split; [discriminate | intros (? & ? & _ & ? & _); discriminate]. }
  destruct (Nat.eqb_spec p el) as [->|Np]; simpl.
  2:{ split; [discriminate | intros (? & ? & A & B & _); congruence]. }
  destruct (Nat.eqb_spec el d) as [->|Nd]; simpl.
  { split; [discriminate | intros (? & ? & A & _ & B & _); congruence]. }
  destruct (pn el) as [parent|] eqn:Epar; simpl.
  2:{ split; [discriminate | intros (? & ? & A & _ & _ & B & _); congruence]. }
  destruct rh as [handle|];
    unfold cancelAnimationFrame, browser, log, modify, bind, ret; simpl.
  - split.
    + intros H. apply (f_equal snd) in H. simpl in H. subst w'.
      exists el, parent. repeat split; auto.
    + intros (el' & parent' & A & _ & _ & B & ->).
      injection A as <-. rewrite Epar in B. injection B as <-. reflexivity.
  - split.
    + intros H. apply (f_equal snd) in H. simpl in H. subst w'.
      exists el, parent. repeat split; auto.
    + intros (el' & parent' & A & _ & _ & B & ->).
      injection A as <-. rewrite Epar in B. injection B as <-. reflexivity.
Qed.

Lemma resize_listener_removed (wl : list (string * Handler)) :
  ~ In ("resize"%string, Hresize)
       (filter (fun l => negb (same_listener "resize" Hresize l)) wl).
Proof.
  intros H. apply filter_In in H. destruct H as [_ H]. discriminate H.
Qed.

Lemma frame_removed (handle : nat) (pf : list nat) :
  ~ In handle (filter (fun x => negb (Nat.eqb x handle)) pf).
Proof.
  intros H. apply filter_In in H. destruct H as [_ H].
  rewrite Nat.eqb_refl in H. discriminate H.
Qed.

(** C9: [destroy] on an initialized Viewer.  With the target set,
    [destroy] completes when the canvas is a child of the target and the
    target has a parent; and whenever it completes, the list of point
    clouds is empty, the resize listener is no longer registered on the
    window, and, if the frame-handle field holds a handle, the frame
    scheduled under that handle is cancelled and no longer pending. *)
Theorem destroy_initialized (w : World) (el : Node) :
  targetEl (viewer w) = Some el ->
  (forall parent,
     parentNode (host w) (domElement (viewer w)) = Some el ->
     el <> domElement (viewer w) ->
     parentNode (host w) el = Some parent ->
     outcome destroy w = Return tt) /\
  (forall w', destroy w = (Return tt, w') ->
     pointClouds (viewer w') = [] /\
     ~ In ("resize"%string, Hresize) (windowListeners (host w')) /\
     (forall handle, reqAnimationFrameHandle (viewer w) = Some handle ->
        ~ In handle (pendingFrames (host w')) /\
        calls w' = calls w ++ [CancelAnimationFrame handle])).
Proof.
  intros Ht. split.
  - intros parent Hc Hd Hp.
    assert (H : destroy w = (Return tt, destroyed w el parent)).
    { apply destroy_returns. exists el, parent. repeat split; assumption. }
    unfold outcome. now rewrite H.
  - intros w' H. apply destroy_returns in H.
    destruct H as (el' & parent & _ & _ & _ & _ & ->).
    unfold destroyed. simpl. split; [reflexivity|]. split.
    + apply resize_listener_removed.
    + intros handle ->. split; [apply frame_removed | reflexivity].
Qed.

Lemma destroy_witness :
  targetEl (viewer running) = Some 1 /\
  In ("resize"%string, Hresize) (windowListeners (host running)) /\
  reqAnimationFrameHandle (viewer running) = Some 2 /\
  In 2 (pendingFrames (host running)) /\
  outcome destroy running = Return tt /\
  pointClouds (viewer (run destroy running)) = [] /\
  ~ In ("resize"%string, Hresize) (windowListeners (host (run destroy running))) /\
  ~ In 2 (pendingFrames (host (run destroy running))).
Proof.
  assert (T : targetEl (viewer running) = Some 1) by (vm_compute; reflexivity).
  assert (Hc : parentNode (host running) (domElement (viewer running)) = Some 1)
    by (vm_compute; reflexivity).
  assert (N : 1 <> domElement (viewer running)) by (vm_compute; discriminate).
  assert (Hp : parentNode (host running) 1 = Some 0) by (vm_compute; reflexivity).
  assert (Hh : reqAnimationFrameHandle (viewer running) = Some 2)
    by (vm_compute; reflexivity).
  destruct (destroy_initialized running T) as [R P].
  specialize (R 0 Hc N Hp).
  destruct (P (run destroy running)) as (A & B & C).
  { apply run_outcome, R. }
  destruct (C 2 Hh) as [D _].
  split; [exact T|]. split; [vm_compute; left; reflexivity|].
  split; [exact Hh|]. split; [vm_compute; left; reflexivity|].
  split; [exact R|]. split; [exact A|]. split; [exact B | exact D].
Defined.

(** C10: [destroy] on a Viewer whose target is unset.  It fails with a
    [TypeError] on its first statement and leaves the whole state as it
    was, so none of its cleanup has run; and a [destroy] that completes
    was called with the target set. *)
Theorem destroy_uninitialized (w : World) :
  (targetEl (viewer w) = None -> destroy w = (Throw JS.TypeError, w)) /\
  (forall u w', destroy w = (Return u, w') -> targetEl (viewer w) <> None).
Proof.
  split.
  - apply destroy_needs_target.
  - intros u w' H. apply destroy_returns in H.
    destruct H as (el & _ & H & _). congruence.
Qed.

Lemma destroy_uninitialized_witness :
  destroy unattached = (Throw JS.TypeError, unattached) /\
  pointClouds (viewer (run destroy unattached)) = [10] /\
  destroy world0 = (Throw JS.TypeError, world0).
Proof.
  assert (T : targetEl (viewer unattached) = None) by (vm_compute; reflexivity).
  assert (T0 : targetEl (viewer world0) = None) by (vm_compute; reflexivity).
  split; [|split].
  - apply (proj1 (destroy_uninitialized unattached) T).
  - unfold run. rewrite (proj1 (destroy_uninitialized unattached) T).
    vm_compute. reflexivity.
  - apply (proj1 (destroy_uninitialized world0) T0).
Defined.

(** C6: a load that resolves after [destroy].  When [load] was called,
    [destroy] later ran to completion, and only then the loader's promise
    resolves with [pco], the reaction makes no check and raises no error:
    it adds [pco] to the scene and appends it to the list that [destroy]
    had emptied, so the list of the destroyed Viewer is not empty. *)
Theorem load_resolves_after_destroy (fileName baseUrl : string)
  (pco : PointCloudOctree) (p : Promise JS.value) (w0 w1 w1' w2 : World) :
  load fileName baseUrl w0 = (Return p, w1) ->
  destroy w1' = (Return tt, w2) ->
  exists w3,
    p (Fulfilled pco) w2 = (Return (Fulfilled JS.Undefined), w3) /\
    pointClouds (viewer w2) = [] /\
    pointClouds (viewer w3) = [pco] /\
    pointClouds (viewer w3) <> [] /\
    calls w3 = calls w2 ++ [SceneAdd pco] /\
    pointColorType (materials w3 pco) = RGB /\
    targetEl (viewer w3) = None /\
    orbitControls (viewer w3) = None.
Proof.
  intros Hl Hd. rewrite load_call in Hl.
  assert (Hp : p = load_promise) by congruence. subst p.
  apply destroy_returns in Hd.
  destruct Hd as (el & parent & _ & _ & _ & _ & ->).
  eexists. rewrite load_promise_fulfilled. split; [reflexivity|].
  unfold run. rewrite load_onFulfilled_run. simpl.
  rewrite Nat.eqb_refl. repeat split; discriminate.
Qed.

(** On the example page: [load] is called while the Viewer runs, the
    next frame comes due, [destroy] runs, and then the loader delivers
    the handle 12. *)
Lemma load_resolves_after_destroy_witness :
  exists p w1 w1' w2 w3,
    load "cloud.js" "http://host/path/" running = (Return p, w1) /\
    w1' = run (animationFrame 2 (JS.Finite 16%Q)) w1 /\
    destroy w1' = (Return tt, w2) /\
    p (Fulfilled 12) w2 = (Return (Fulfilled JS.Undefined), w3) /\
    pointClouds (viewer w1') = [10; 11] /\
    pointClouds (viewer w2) = [] /\
    pointClouds (viewer w3) = [12].
Proof.
  pose (w1 := run (load "cloud.js" "http://host/path/") running).
  pose (w1' := run (animationFrame 2 (JS.Finite 16%Q)) w1).
  assert (Hl : load "cloud.js" "http://host/path/" running
               = (Return load_promise, w1)) by apply load_call.
  assert (Hd : destroy w1' = (Return tt, destroyed w1' 1 0)).
  { apply destroy_returns. exists 1, 0.
    repeat match goal with |- _ /\ _ => split end;
      try reflexivity; vm_compute; try reflexivity; discriminate. }
  destruct (@load_resolves_after_destroy _ _ 12 _ _ _ _ _ Hl Hd) as (w3 & A & B & C & _).
  exists load_promise, w1, w1', (destroyed w1' 1 0), w3.
  split; [exact Hl|]. split; [reflexivity|]. split; [exact Hd|].
  split; [exact A|].
  split; [vm_compute; reflexivity|]. split; [exact B | exact C].
Defined.

(* ================================================================= *)
(** ** More on the UI event handlers *)

(** X1: the layer handler: the label "1" sets the color mode of every point
    cloud of the list to RGB and the label "2" sets it to the
    elevation-mapped mode, leaving the other material properties, the
    objects outside the list and the rest of the state alone; any other
    label changes nothing at all, and no label raises an error. *)
Theorem changeLayer_spec (e : Event) (w : World) :
  let v := value (target e) in
  let w' := run (changeLayer e) w in
  outcome (changeLayer e) w = Return tt /\
  viewer w' = viewer w /\ host w' = host w /\ calls w' = calls w /\
  (forall p, ~ In p (pointClouds (viewer w)) -> materials w' p = materials w p) /\
  (v = "1"%string -> forall p, In p (pointClouds (viewer w)) ->
     materials w' p = set_pointColorType RGB (materials w p)) /\
  (v = "2"%string -> forall p, In p (pointClouds (viewer w)) ->
     materials w' p = set_pointColorType RGB_HEIGHT (materials w p)) /\
  (v <> "1"%string -> v <> "2"%string -> w' = w).
Proof.
  intros v w'. subst w'. unfold changeLayer. fold v.
  destruct (String.eqb_spec v "1") as [E1|N1];
    [|destruct (String.eqb_spec v "2") as [E2|N2]].
  - destruct (pointClouds_forEach_spec (set_pointColorType RGB)
                (set_pointColorType_idem RGB) w)
      as (Ho & Hv & Hh & Hc & Hin & Hout).
    repeat split; try assumption; try (intros; congruence).
    intros _ p Hp. now apply Hin.
  - destruct (pointClouds_forEach_spec (set_pointColorType RGB_HEIGHT)
                (set_pointColorType_idem RGB_HEIGHT) w)
      as (Ho & Hv & Hh & Hc & Hin & Hout).
    repeat split; try assumption; try (intros; congruence).
    intros _ p Hp. now apply Hin.
  - repeat split; intros; congruence.
Qed.

Lemma changeLayer_witness :
  pointColorType (materials (run (changeLayer (event "2")) loaded) 10)
    = RGB_HEIGHT /\
  pointColorType
    (materials (run (changeLayer (event "1"))
                    (run (changeLayer (event "2")) loaded)) 11) = RGB /\
  run (changeLayer (event "3")) loaded = loaded.
Proof.
  split; [|split].
  - destruct (changeLayer_spec (event "2") loaded)
      as (_ & _ & _ & _ & _ & _ & H & _).
    rewrite (H eq_refl 10 (or_introl eq_refl)). reflexivity.
  - destruct (changeLayer_spec (event "1")
                (run (changeLayer (event "2")) loaded))
      as (_ & _ & _ & _ & _ & H & _).
    assert (I : In 11 (pointClouds
                (viewer (run (changeLayer (event "2")) loaded))))
      by (vm_compute; right; left; reflexivity).
    rewrite (H eq_refl 11 I). reflexivity.
  - destruct (changeLayer_spec (event "3") loaded)
      as (_ & _ & _ & _ & _ & _ & _ & H).
    apply H; discriminate.
Defined.

(** X2: with no point cloud in the list (before the first load resolves, or
    after [destroy]) every handler returns without error and leaves the
    state exactly as it is, whatever the event carries. *)
Theorem handlers_empty_list (e : Event) (w : World) :
  pointClouds (viewer w) = [] ->
  configPointsShape e w = (Return tt, w) /\
  changeLayer e w = (Return tt, w) /\
  changePointsOpacity e w = (Return tt, w) /\
  changePointsSize e w = (Return tt, w).
Proof.
  intros H.
  assert (P : forall f, pointClouds_forEach f w = (Return tt, w)).
  { intros f. unfold pointClouds_forEach, bind, this. rewrite H. reflexivity. }
  unfold configPointsShape, changeLayer, changePointsOpacity, changePointsSize.
  repeat split;
    repeat match goal with
    | |- (if ?b then _ else _) _ = _ => destruct b
    end; try apply P; reflexivity.
Qed.

Lemma handlers_empty_list_witness :
  configPointsShape (event "Square") initialized = (Return tt, initialized) /\
  changeLayer (event "2") initialized = (Return tt, initialized) /\
  changePointsOpacity (event "0.5") initialized = (Return tt, initialized) /\
  changePointsSize (event "3") initialized = (Return tt, initialized).
Proof.
  assert (H : pointClouds (viewer initialized) = [])
    by (vm_compute; reflexivity).
  destruct (handlers_empty_list (event "Square") initialized H) as (A & _).
  destruct (handlers_empty_list (event "2") initialized H) as (_ & B & _).
  destruct (handlers_empty_list (event "0.5") initialized H) as (_ & _ & C & _).
  destruct (handlers_empty_list (event "3") initialized H) as (_ & _ & _ & D).
  split; [exact A|]. split; [exact B|]. split; [exact C | exact D].
Defined.

Lemma pointClouds_forEach_pointwise f (Hf : forall m, f (f m) = f m) (w : World) :
  outcome (pointClouds_forEach f) w = Return tt /\
  viewer (run (pointClouds_forEach f) w) = viewer w /\
  host (run (pointClouds_forEach f) w) = host w /\
  calls (run (pointClouds_forEach f) w) = calls w /\
  forall p, materials (run (pointClouds_forEach f) w) p =
    if existsb (Nat.eqb p) (pointClouds (viewer w))
    then f (materials w p) else materials w p.
Proof.
  exact (forEach_set_material f Hf (pointClouds (viewer w)) w).
Qed.

Lemma assigns_forEach (F : (PointCloudMaterial -> PointCloudMaterial) -> Prop) f :
  (forall m, f (f m) = f m) -> F f -> assigns (pointClouds_forEach f) F.
Proof.
  intros Hf HF. exists f. split; [exact HF|].
  intros w. apply pointClouds_forEach_pointwise, Hf.
Qed.

Lemma assigns_ret (F : (PointCloudMaterial -> PointCloudMaterial) -> Prop) :
  F (fun m => m) -> assigns (ret tt) F.
Proof.
  intros HF. exists (fun m => m). split; [exact HF|].
  intros w. repeat split. intros p. simpl.
  now destruct (existsb (Nat.eqb p) (pointClouds (viewer w))).
Qed.

Lemma configPointsShape_assigns (e : Event) :
  assigns (configPointsShape e) writes_shape.
Proof.
  unfold configPointsShape.
  repeat match goal with
  | |- assigns (if ?b then _ else _) _ => destruct b
  end;
  try (apply assigns_ret; left; reflexivity);
  (apply assigns_forEach; [reflexivity | right; eexists; reflexivity]).
Qed.

Lemma changeLayer_assigns (e : Event) :
  assigns (changeLayer e) writes_pointColorType.
Proof.
  unfold changeLayer.
  repeat match goal with
  | |- assigns (if ?b then _ else _) _ => destruct b
  end;
  try (apply assigns_ret; left; reflexivity);
  (apply assigns_forEach; [reflexivity | right; eexists; reflexivity]).
Qed.

Lemma changePointsOpacity_assigns (e : Event) :
  assigns (changePointsOpacity e) writes_opacity.
Proof.
  unfold changePointsOpacity.
  repeat match goal with
  | |- assigns (if ?b then _ else _) _ => destruct b
  end;
  try (apply assigns_ret; left; reflexivity);
  (apply assigns_forEach; [reflexivity | right; eexists; reflexivity]).
Qed.

Lemma changePointsSize_assigns (e : Event) :
  assigns (changePointsSize e) writes_size.
Proof.
  unfold changePointsSize.
  repeat match goal with
  | |- assigns (if ?b then _ else _) _ => destruct b
  end;
  try (apply assigns_ret; left; reflexivity);
  (apply assigns_forEach; [reflexivity | right; eexists; reflexivity]).
Qed.

Lemma assigns_idempotent h F :
  assigns h F -> (forall f, F f -> forall m, f (f m) = f m) ->
  forall w, outcome h (run h w) = Return tt /\ same_state (run h (run h w)) (run h w).
Proof.
  intros (f & HF & H) Hidem w.
  destruct (H w) as (_ & Hv & Hh & Hc & Hm).
  destruct (H (run h w)) as (Ho' & Hv' & Hh' & Hc' & Hm').
  split; [exact Ho'|]. repeat split; try assumption.
  intros p. rewrite Hm', Hv, Hm.
  destruct (existsb (Nat.eqb p) (pointClouds (viewer w))); [|reflexivity].
  now apply Hidem.
Qed.

Lemma assigns_commute h1 F1 h2 F2 :
  assigns h1 F1 -> assigns h2 F2 ->
  (forall f g, F1 f -> F2 g -> forall m, f (g m) = g (f m)) ->
  forall w, same_state (run h1 (run h2 w)) (run h2 (run h1 w)).
Proof.
  intros (f & HF & H1) (g & HG & H2) Hfg w.
  destruct (H1 w) as (_ & Hv1 & Hh1 & Hc1 & Hm1).
  destruct (H2 w) as (_ & Hv2 & Hh2 & Hc2 & Hm2).
  destruct (H1 (run h2 w)) as (_ & Hv12 & Hh12 & Hc12 & Hm12).
  destruct (H2 (run h1 w)) as (_ & Hv21 & Hh21 & Hc21 & Hm21).
  repeat split; try congruence.
  intros p. rewrite Hm12, Hm21, Hv1, Hv2, Hm1, Hm2.
  destruct (existsb (Nat.eqb p) (pointClouds (viewer w))); [|reflexivity].
  now apply Hfg.
Qed.

Ltac writes_cases :=
  repeat match goal with
  | H : writes_shape _ |- _ => destruct H as [H | [? H]]
  | H : writes_pointColorType _ |- _ => destruct H as [H | [? H]]
  | H : writes_opacity _ |- _ => destruct H as [H | [? H]]
  | H : writes_size _ |- _ => destruct H as [H | [? H]]
  end;
  intros; repeat match goal with H : forall m, _ = _ |- _ => rewrite !H; clear H end;
  reflexivity.

(** X3: every handler is idempotent: delivering the same event a second time
    raises no error and changes nothing that the first delivery had not
    already set. *)
Theorem handlers_idempotent (e : Event) (w : World) :
  same_state (run (configPointsShape e) (run (configPointsShape e) w))
             (run (configPointsShape e) w) /\
  same_state (run (changeLayer e) (run (changeLayer e) w))
             (run (changeLayer e) w) /\
  same_state (run (changePointsOpacity e) (run (changePointsOpacity e) w))
             (run (changePointsOpacity e) w) /\
  same_state (run (changePointsSize e) (run (changePointsSize e) w))
             (run (changePointsSize e) w).
Proof.
  split; [|split; [|split]].
  - apply (assigns_idempotent (configPointsShape_assigns e)).
    intros f Hf. writes_cases.
  - apply (assigns_idempotent (changeLayer_assigns e)).
    intros f Hf. writes_cases.
  - apply (assigns_idempotent (changePointsOpacity_assigns e)).
    intros f Hf. writes_cases.
  - apply (assigns_idempotent (changePointsSize_assigns e)).
    intros f Hf. writes_cases.
Qed.

(** X4: handlers for different material properties commute: whatever the two
    events carry, delivering them in either order leaves the same state.
    The shape, the color mode, the opacity and the size of a point cloud
    are set independently of one another. *)
Theorem handlers_commute (e1 e2 : Event) (w : World) :
  same_state (run (configPointsShape e1) (run (changeLayer e2) w))
             (run (changeLayer e2) (run (configPointsShape e1) w)) /\
  same_state (run (configPointsShape e1) (run (changePointsOpacity e2) w))
             (run (changePointsOpacity e2) (run (configPointsShape e1) w)) /\
  same_state (run (configPointsShape e1) (run (changePointsSize e2) w))
             (run (changePointsSize e2) (run (configPointsShape e1) w)) /\
  same_state (run (changeLayer e1) (run (changePointsOpacity e2) w))
             (run (changePointsOpacity e2) (run (changeLayer e1) w)) /\
  same_state (run (changeLayer e1) (run (changePointsSize e2) w))
             (run (changePointsSize e2) (run (changeLayer e1) w)) /\
  same_state (run (changePointsOpacity e1) (run (changePointsSize e2) w))
             (run (changePointsSize e2) (run (changePointsOpacity e1) w)).
Proof.
  repeat match goal with |- _ /\ _ => split end.
  - apply (assigns_commute (configPointsShape_assigns e1) (changeLayer_assigns e2)).
    intros f g Hf Hg. writes_cases.
  - apply (assigns_commute (configPointsShape_assigns e1)
             (changePointsOpacity_assigns e2)).
    intros f g Hf Hg. writes_cases.
  - apply (assigns_commute (configPointsShape_assigns e1)
             (changePointsSize_assigns e2)).
    intros f g Hf Hg. writes_cases.
  - apply (assigns_commute (changeLayer_assigns e1)
             (changePointsOpacity_assigns e2)).
    intros f g Hf Hg. writes_cases.
  - apply (assigns_commute (changeLayer_assigns e1) (changePointsSize_assigns e2)).
    intros f g Hf Hg. writes_cases.
  - apply (assigns_commute (changePointsOpacity_assigns e1)
             (changePointsSize_assigns e2)).
    intros f g Hf Hg. writes_cases.
Qed.

(* ================================================================= *)
(** ** More on initialization *)

Lemma same_listener_true type f l :
  same_listener type f l = true -> l = (type, f).
Proof.
  destruct l as [t' f']. unfold same_listener. simpl.
  rewrite andb_true_iff, String.eqb_eq. intros [-> H].
  destruct f, f'; simpl in H; try discriminate; reflexivity.
Qed.

Lemma same_node_listener_true el type f l :
  same_node_listener el type f l = true -> l = (el, type, f).
Proof.
  destruct l as [[el' t'] f']. unfold same_node_listener. simpl.
  rewrite !andb_true_iff, String.eqb_eq, Nat.eqb_eq. intros [[-> ->] H].
  destruct f, f'; simpl in H; try discriminate; reflexivity.
Qed.

Lemma existsb_same_listener type f l :
  existsb (same_listener type f) l = true -> In (type, f) l.
Proof.
  rewrite existsb_exists. intros (x & Hx & E).
  apply same_listener_true in E. now subst.
Qed.

Lemma existsb_same_node_listener el type f l :
  existsb (same_node_listener el type f) l = true -> In (el, type, f) l.
Proof.
  rewrite existsb_exists. intros (x & Hx & E).
  apply same_node_listener_true in E. now subst.
Qed.

Lemma window_addEventListener_run type f (w : World) :
  window_addEventListener type f w =
  (Return tt,
   set_host
     (set_windowListeners
        (add_listener (same_listener type f) (type, f) (windowListeners (host w)))
        (host w)) w).
Proof.
  world w. unfold window_addEventListener, add_listener, browser, modify.
  simpl. now destruct (existsb (same_listener type f) wl).
Qed.

Lemma addEventListener_run el type f (w : World) :
  addEventListener el type f w =
  (Return tt,
   set_host
     (set_nodeListeners
        (add_listener (same_node_listener el type f) (el, type, f)
           (nodeListeners (host w)))
        (host w)) w).
Proof.
  world w. unfold addEventListener, add_listener, browser, modify.
  simpl. now destruct (existsb (same_node_listener el type f) nl).
Qed.

Lemma listen_found el selector type f n (w : World) :
  querySelector (host w) el selector = Some n ->
  listen el selector type f w =
  (Return tt,
   set_host
     (set_nodeListeners
        (add_listener (same_node_listener n type f) (n, type, f)
           (nodeListeners (host w)))
        (host w)) w).
Proof.
  intros Q. unfold listen, bind, get, deref. rewrite Q. simpl.
  apply addEventListener_run.
Qed.

Lemma listen_missing el selector type f (w : World) :
  querySelector (host w) el selector = None ->
  listen el selector type f w = (Throw JS.TypeError, w).
Proof.
  intros Q. unfold listen, bind, get, deref. rewrite Q. reflexivity.
Qed.

Lemma add_listener_In {A} (same : A -> bool) (x : A) (l : list A) :
  (forall y, same y = true -> y = x) -> In x (add_listener same x l).
Proof.
  intros H. unfold add_listener. destruct (existsb same l) eqn:E.
  - apply existsb_exists in E. destruct E as (y & Hy & Ey).
    apply H in Ey. now subst.
  - apply In_app_singleton.
Qed.

Lemma add_listener_incl {A} (same : A -> bool) (x y : A) (l : list A) :
  In y l -> In y (add_listener same x l).
Proof.
  intros H. unfold add_listener. destruct (existsb same l); [assumption|].
  apply in_or_app. now left.
Qed.

Lemma add_listener_inv {A} (same : A -> bool) (x y : A) (l : list A) :
  In y (add_listener same x l) -> In y l \/ y = x.
Proof.
  unfold add_listener. destruct (existsb same l); [now left|].
  intros H. apply in_app_or in H. destruct H as [H|[H|[]]]; auto.
Qed.

#[local] Arguments window_addEventListener : simpl never.
#[local] Arguments listen : simpl never.
#[local] Arguments add_listener : simpl never.

Unset Implicit Arguments.

Ltac fields :=
  cbv beta iota delta
    [viewer host materials calls
     targetEl domElement orbitControls pointClouds prevTime
     reqAnimationFrameHandle
     parentNode querySelector nextNode windowListeners nodeListeners
     pendingFrames nextFrame
     set_viewer set_host set_materials set_targetEl set_orbitControls
     set_pointClouds set_prevTime set_reqAnimationFrameHandle
     set_parentNode set_nextNode set_windowListeners set_nodeListeners
     set_frames].

(** One statement of a method: it returns and the rest runs in the state
    it leaves, or it throws and the method is left. *)
Ltac step :=
  first
    [ erewrite bind_Return by apply window_addEventListener_run
    | erewrite bind_Return by (apply listen_found; fields; eassumption)
    | erewrite bind_Throw by (apply listen_missing; fields; eassumption)
    | erewrite bind_Return by reflexivity
    | erewrite bind_Return by (unfold requestAnimationFrame; reflexivity)
    | erewrite bind_Throw by reflexivity ];
  fields.

Lemma initialize_fresh_run (el n1 n2 n3 n4 : Node) (w : World) :
  targetEl (viewer w) = None ->
  orbitControls (viewer w) <> None ->
  querySelector (host w) el "input[name=opacity]" = Some n1 ->
  querySelector (host w) el "input[name=size]" = Some n2 ->
  querySelector (host w) el "select[name=layers]" = Some n3 ->
  querySelector (host w) el "select" = Some n4 ->
  initialize (Some el) w = (Return tt, initialized_with w el n1 n2 n3 n4).
Proof.
  intros Ht Ho Q1 Q2 Q3 Q4.
  world w. simpl in *. subst t. destruct o as [c0|]; [|congruence].
  unfold initialize. repeat step.
  unfold initialized_with. fields. rewrite <- !app_assoc. reflexivity.
Qed.

Lemma initialize_when_set (arg : option Node) (w : World) :
  targetEl (viewer w) <> None -> initialize arg w = (Return tt, w).
Proof.
  intros H. world w. simpl in H. destruct t; [reflexivity | congruence].
Qed.

(** X6: a complete [initialize].  On a Viewer whose target is unset and
    whose camera controls are present, with an element below which the
    four controls are found, [initialize] completes: it sets the target
    and no other field (the frame-handle field stays as it was), makes
    the canvas a child of the target, registers [resize] on the window
    and its four handlers on the four controls (opacity and size for
    "input", layer and shape for "change") while keeping every listener
    that was registered and adding no other, configures the controls,
    sizes the renderer, and requests exactly one frame. *)
Theorem initialize_fresh (el n1 n2 n3 n4 : Node) (w : World) :
  targetEl (viewer w) = None ->
  orbitControls (viewer w) <> None ->
  querySelector (host w) el "input[name=opacity]" = Some n1 ->
  querySelector (host w) el "input[name=size]" = Some n2 ->
  querySelector (host w) el "select[name=layers]" = Some n3 ->
  querySelector (host w) el "select" = Some n4 ->
  let w' := run (initialize (Some el)) w in
  outcome (initialize (Some el)) w = Return tt /\
  viewer w' = set_targetEl (Some el) (viewer w) /\
  (forall n, parentNode (host w') n =
     if Nat.eqb n (domElement (viewer w)) then Some el
     else parentNode (host w) n) /\
  In ("resize"%string, Hresize) (windowListeners (host w')) /\
  In (n1, "input"%string, HchangePointsOpacity) (nodeListeners (host w')) /\
  In (n2, "input"%string, HchangePointsSize) (nodeListeners (host w')) /\
  In (n3, "change"%string, HchangeLayer) (nodeListeners (host w')) /\
  In (n4, "change"%string, HconfigPointsShape) (nodeListeners (host w')) /\
  (forall l, In l (windowListeners (host w)) -> In l (windowListeners (host w'))) /\
  (forall l, In l (nodeListeners (host w)) -> In l (nodeListeners (host w'))) /\
  (forall l, In l (windowListeners (host w')) ->
     In l (windowListeners (host w)) \/ l = ("resize"%string, Hresize)) /\
  (forall l, In l (nodeListeners (host w')) ->
     In l (nodeListeners (host w)) \/
     l = (n1, "input"%string, HchangePointsOpacity) \/
     l = (n2, "input"%string, HchangePointsSize) \/
     l = (n3, "change"%string, HchangeLayer) \/
     l = (n4, "change"%string, HconfigPointsShape)) /\
  pendingFrames (host w') = pendingFrames (host w) ++ [nextFrame (host w)] /\
  calls w' = calls w ++
    [ControlsSet "enableDamping"; ControlsSet "dampingFactor";
     ControlsSet "screenSpacePanning"; ControlsSet "minDistance";
     ControlsSet "maxDistance"; ControlsSet "maxPolarAngle";
     CameraSetAspect el; CameraUpdateProjectionMatrix; RendererSetSize el;
     RequestAnimationFrame (nextFrame (host w))] /\
  materials w' = materials w.
Proof.
  intros Ht Ho Q1 Q2 Q3 Q4 w'. subst w'. unfold run, outcome.
  rewrite (initialize_fresh_run el n1 n2 n3 n4 w Ht Ho Q1 Q2 Q3 Q4).
  unfold initialized_with. cbn [fst snd]. fields.
  repeat match goal with |- _ /\ _ => split end; try reflexivity.
  - apply add_listener_In, same_listener_true.
  - do 3 apply add_listener_incl. apply add_listener_In, same_node_listener_true.
  - do 2 apply add_listener_incl. apply add_listener_In, same_node_listener_true.
  - apply add_listener_incl. apply add_listener_In, same_node_listener_true.
  - apply add_listener_In, same_node_listener_true.
  - intros l. apply add_listener_incl.
  - intros l H. now do 4 apply add_listener_incl.
  - intros l. apply add_listener_inv.
  - intros l H.
    repeat (apply add_listener_inv in H; destruct H as [H|H]); auto.
Qed.

Lemma initialize_fresh_witness :
  outcome (initialize (Some 1)) world0 = Return tt /\
  targetEl (viewer initialized) = Some 1 /\
  reqAnimationFrameHandle (viewer initialized) = None /\
  parentNode (host initialized) 6 = Some 1 /\
  In (2, "input"%string, HchangePointsOpacity) (nodeListeners (host initialized)) /\
  In (4, "change"%string, HconfigPointsShape) (nodeListeners (host initialized)) /\
  pendingFrames (host initialized) = [1].
Proof.
  assert (Ht : targetEl (viewer world0) = None) by reflexivity.
  assert (Ho : orbitControls (viewer world0) <> None) by discriminate.
  assert (Q1 : querySelector (host world0) 1 "input[name=opacity]" = Some 2)
    by reflexivity.
  assert (Q2 : querySelector (host world0) 1 "input[name=size]" = Some 3)
    by reflexivity.
  assert (Q3 : querySelector (host world0) 1 "select[name=layers]" = Some 5)
    by reflexivity.
  assert (Q4 : querySelector (host world0) 1 "select" = Some 4) by reflexivity.
  destruct (initialize_fresh 1 2 3 5 4 world0 Ht Ho Q1 Q2 Q3 Q4)
    as (A & B & C & _ & D & _ & _ & E & _ & _ & _ & _ & F & _).
  split; [exact A|]. split; [exact (f_equal targetEl B)|].
  split; [exact (f_equal reqAnimationFrameHandle B)|].
  split; [exact (C 6)|]. split; [exact D|]. split; [exact E | exact F].
Defined.

(** X7: an [initialize] that fails half way.  When one of the four controls
    is not found below the target, [initialize] fails with a [TypeError];
    by then the target is set, the canvas is attached and [resize] is
    registered on the window, but no frame has been requested.  As the
    target is set, every later [initialize] returns at once: the Viewer
    cannot be initialized any more, and its frame loop never starts. *)
Theorem initialize_missing_control (el : Node) (w : World) :
  targetEl (viewer w) = None ->
  orbitControls (viewer w) <> None ->
  querySelector (host w) el "input[name=opacity]" = None \/
  querySelector (host w) el "input[name=size]" = None \/
  querySelector (host w) el "select[name=layers]" = None \/
  querySelector (host w) el "select" = None ->
  exists w',
    initialize (Some el) w = (Throw JS.TypeError, w') /\
    targetEl (viewer w') = Some el /\
    parentNode (host w') (domElement (viewer w)) = Some el /\
    In ("resize"%string, Hresize) (windowListeners (host w')) /\
    pendingFrames (host w') = pendingFrames (host w) /\
    forall arg, initialize arg w' = (Return tt, w').
Proof.
  intros Ht Ho Q.
  world w. simpl in *. subst t. destruct o as [c0|]; [|congruence].
  assert (R : forall l, In ("resize"%string, Hresize)
                (add_listener (same_listener "resize" Hresize)
                   ("resize"%string, Hresize) l)).
  { intros l. apply add_listener_In, same_listener_true. }
  destruct (qs el "input[name=opacity]"%string) as [n1|] eqn:Q1;
    [destruct (qs el "input[name=size]"%string) as [n2|] eqn:Q2;
      [destruct (qs el "select[name=layers]"%string) as [n3|] eqn:Q3;
        [destruct (qs el "select"%string) as [n4|] eqn:Q4|]|]|].
  - exfalso. destruct Q as [Q|[Q|[Q|Q]]]; discriminate Q.
  - eexists. split; [unfold initialize; repeat step; reflexivity|].
    fields. rewrite Nat.eqb_refl.
    repeat match goal with |- _ /\ _ => split end;
      try reflexivity; try apply R.
  - eexists. split; [unfold initialize; repeat step; reflexivity|].
    fields. rewrite Nat.eqb_refl.
    repeat match goal with |- _ /\ _ => split end;
      try reflexivity; try apply R.
  - eexists. split; [unfold initialize; repeat step; reflexivity|].
    fields. rewrite Nat.eqb_refl.
    repeat match goal with |- _ /\ _ => split end;
      try reflexivity; try apply R.
  - eexists. split; [unfold initialize; repeat step; reflexivity|].
    fields. rewrite Nat.eqb_refl.
    repeat match goal with |- _ /\ _ => split end;
      try reflexivity; try apply R.
Qed.

(** On the example page, node 0 (the parent of the target) contains none
    of the controls. *)
Lemma initialize_missing_control_witness :
  exists w',
    initialize (Some 0) world0 = (Throw JS.TypeError, w') /\
    targetEl (viewer w') = Some 0 /\
    pendingFrames (host w') = [] /\
    initialize (Some 1) w' = (Return tt, w').
Proof.
  assert (Ht : targetEl (viewer world0) = None) by reflexivity.
  assert (Ho : orbitControls (viewer world0) <> None) by discriminate.
  assert (Q : querySelector (host world0) 0 "input[name=opacity]" = None \/
              querySelector (host world0) 0 "input[name=size]" = None \/
              querySelector (host world0) 0 "select[name=layers]" = None \/
              querySelector (host world0) 0 "select" = None)
    by (left; reflexivity).
  destruct (initialize_missing_control 0 world0 Ht Ho Q)
    as (w' & A & B & _ & _ & C & D).
  exists w'. split; [exact A|]. split; [exact B|]. split; [exact C|].
  exact (D (Some 1)).
Defined.

(** X8: a destroyed Viewer cannot be initialized again.  After a [destroy]
    that completed, [initialize] with any element sets the target and
    attaches the canvas, and then fails with a [TypeError] on the released
    camera controls: no listener is registered, no frame is requested and
    no call reaches the libraries. *)
Theorem initialize_after_destroy (el : Node) (w w1 : World) :
  destroy w = (Return tt, w1) ->
  initialize (Some el) w1 =
    (Throw JS.TypeError,
     set_host (set_parentNode (domElement (viewer w1)) (Some el) (host w1))
       (set_viewer (set_targetEl (Some el) (viewer w1)) w1)).
Proof.
  intros H. apply destroy_returns in H.
  destruct H as (el0 & parent & _ & _ & _ & _ & ->).
  unfold destroyed. unfold initialize. repeat step. reflexivity.
Qed.

Lemma initialize_after_destroy_witness :
  exists w1 w2,
    destroy running = (Return tt, w1) /\
    initialize (Some 7) w1 = (Throw JS.TypeError, w2) /\
    targetEl (viewer w2) = Some 7 /\
    windowListeners (host w2) = [] /\
    pendingFrames (host w2) = [] /\
    calls w2 = calls w1.
Proof.
  assert (Hd : destroy running = (Return tt, destroyed running 1 0)).
  { apply destroy_returns. exists 1, 0.
    repeat match goal with |- _ /\ _ => split end;
      try reflexivity; vm_compute; try reflexivity; discriminate. }
  exists (destroyed running 1 0).
  exists (set_host
            (set_parentNode (domElement (viewer (destroyed running 1 0)))
               (Some 7) (host (destroyed running 1 0)))
            (set_viewer (set_targetEl (Some 7) (viewer (destroyed running 1 0)))
               (destroyed running 1 0))).
  split; [exact Hd|].
  split; [exact (initialize_after_destroy 7 running _ Hd)|].
  repeat match goal with |- _ /\ _ => split end; vm_compute; reflexivity.
Defined.

(* ================================================================= *)
(** ** More on tear-down *)

(** X9: what [destroy] does to the page and what it keeps.  When [destroy]
    completes, the target it found has no parent any more, the fresh
    clone stands below the target's former parent, the canvas has no
    parent, and no other node has moved.  The window keeps every listener
    but [resize].  The listeners on the controls, the materials, the
    recorded time and the frame-handle field are as before: the handle is
    not cleared. *)
Theorem destroy_page (w w1 : World) :
  destroy w = (Return tt, w1) ->
  exists el parent,
    targetEl (viewer w) = Some el /\
    parentNode (host w) el = Some parent /\
    parentNode (host w1) el = None /\
    (nextNode (host w) <> el ->
       parentNode (host w1) (nextNode (host w)) = Some parent) /\
    (domElement (viewer w) <> nextNode (host w) ->
       parentNode (host w1) (domElement (viewer w)) = None) /\
    (forall n, n <> el -> n <> nextNode (host w) -> n <> domElement (viewer w) ->
       parentNode (host w1) n = parentNode (host w) n) /\
    (forall l, In l (windowListeners (host w1)) <->
       In l (windowListeners (host w)) /\ l <> ("resize"%string, Hresize)) /\
    nodeListeners (host w1) = nodeListeners (host w) /\
    materials w1 = materials w /\
    prevTime (viewer w1) = prevTime (viewer w) /\
    reqAnimationFrameHandle (viewer w1) = reqAnimationFrameHandle (viewer w).
Proof.
  intros H. apply destroy_returns in H.
  destruct H as (el & parent & Ht & Hc & Hd & Hp & ->).
  exists el, parent. unfold destroyed. simpl.
  repeat match goal with |- _ /\ _ => split end; try assumption; try reflexivity.
  - now rewrite Nat.eqb_refl.
  - intros N. apply Nat.eqb_neq in N. now rewrite N, Nat.eqb_refl.
  - intros N. apply Nat.eqb_neq in N. apply not_eq_sym, Nat.eqb_neq in Hd.
    now rewrite Hd, N, Nat.eqb_refl.
  - intros n N1 N2 N3. apply Nat.eqb_neq in N1, N2, N3. now rewrite N1, N2, N3.
  - intros l. rewrite filter_In. split.
    + intros [Hl Hs]. split; [assumption|]. intros ->. discriminate Hs.
    + intros [Hl Hs]. split; [assumption|].
      destruct (same_listener "resize" Hresize l) eqn:E; [|reflexivity].
      apply same_listener_true in E. contradiction.
Qed.

Lemma destroy_page_witness :
  exists w1,
    destroy running = (Return tt, w1) /\
    parentNode (host running) 1 = Some 0 /\
    parentNode (host w1) 1 = None /\
    parentNode (host w1) 7 = Some 0 /\
    parentNode (host w1) 6 = None /\
    reqAnimationFrameHandle (viewer w1) = Some 2.
Proof.
  assert (Hd : destroy running = (Return tt, destroyed running 1 0)).
  { apply destroy_returns. exists 1, 0.
    repeat match goal with |- _ /\ _ => split end;
      try reflexivity; vm_compute; try reflexivity; discriminate. }
  destruct (destroy_page running _ Hd)
    as (el & parent & A & B & C & D & E & _).
  assert (A1 : el = 1) by (vm_compute in A; congruence). subst el.
  assert (B1 : parent = 0) by (vm_compute in B; congruence). subst parent.
  exists (destroyed running 1 0).
  split; [exact Hd|]. split; [exact B|]. split; [exact C|].
  split; [apply D; vm_compute; discriminate|].
  split; [apply E; vm_compute; discriminate|].
  vm_compute. reflexivity.
Defined.

(** X10: using a destroyed Viewer.  After a [destroy] that completed, a second
    [destroy] and [resize] fail with a [TypeError] on the unset target and
    change nothing; [update] fails with a [TypeError] on the released
    camera controls before it reaches the point-cloud library; [render]
    still clears and renders. *)
Theorem destroyed_viewer (dt : JS.number) (w w1 : World) :
  destroy w = (Return tt, w1) ->
  destroy w1 = (Throw JS.TypeError, w1) /\
  resize w1 = (Throw JS.TypeError, w1) /\
  outcome (update dt) w1 = Throw JS.TypeError /\
  calls (run (update dt) w1) = calls w1 ++ [ViewerUpdate dt] /\
  outcome render w1 = Return tt /\
  calls (run render w1) = calls w1 ++ [ViewerRender; RendererClear; RendererRender].
Proof.
  intros H. apply destroy_returns in H.
  destruct H as (el & parent & _ & _ & _ & _ & ->).
  unfold destroyed, run, outcome.
  repeat match goal with |- _ /\ _ => split end; try reflexivity.
  unfold render, log, modify, bind. simpl.
  now rewrite <- !app_assoc.
Qed.

Lemma destroyed_viewer_witness :
  exists w1,
    destroy running = (Return tt, w1) /\
    destroy w1 = (Throw JS.TypeError, w1) /\
    resize w1 = (Throw JS.TypeError, w1) /\
    outcome (update (JS.Finite 16%Q)) w1 = Throw JS.TypeError /\
    outcome render w1 = Return tt.
Proof.
  assert (Hd : destroy running = (Return tt, destroyed running 1 0)).
  { apply destroy_returns. exists 1, 0.
    repeat match goal with |- _ /\ _ => split end;
      try reflexivity; vm_compute; try reflexivity; discriminate. }
  destruct (destroyed_viewer (JS.Finite 16%Q) running _ Hd)
    as (A & B & C & _ & D & _).
  exists (destroyed running 1 0).
  split; [exact Hd|]. split; [exact A|]. split; [exact B|].
  split; [exact C | exact D].
Defined.

(** X11: a [destroy] before the first frame does not stop the loop.  When
    [initialize] has just completed on a fresh Viewer (no frame handle
    stored) and [destroy] runs before the frame it requested comes due,
    [destroy] completes without cancelling anything: that frame is still
    pending. *)
Theorem destroy_before_first_frame (el n1 n2 n3 n4 parent : Node) (w : World) :
  targetEl (viewer w) = None ->
  orbitControls (viewer w) <> None ->
  reqAnimationFrameHandle (viewer w) = None ->
  querySelector (host w) el "input[name=opacity]" = Some n1 ->
  querySelector (host w) el "input[name=size]" = Some n2 ->
  querySelector (host w) el "select[name=layers]" = Some n3 ->
  querySelector (host w) el "select" = Some n4 ->
  parentNode (host w) el = Some parent ->
  el <> domElement (viewer w) ->
  exists w1 w2,
    initialize (Some el) w = (Return tt, w1) /\
    destroy w1 = (Return tt, w2) /\
    In (nextFrame (host w)) (pendingFrames (host w2)) /\
    pendingFrames (host w2) = pendingFrames (host w1) /\
    calls w2 = calls w1.
Proof.
  intros Ht Ho Hh Q1 Q2 Q3 Q4 Hp Hd.
  pose (w1 := initialized_with w el n1 n2 n3 n4).
  assert (D : destroy w1 = (Return tt, destroyed w1 el parent)).
  { apply destroy_returns. exists el, parent. unfold w1, initialized_with. simpl.
    apply Nat.eqb_neq in Hd. rewrite Nat.eqb_refl, Hd.
    repeat split; try assumption; try reflexivity.
    now apply Nat.eqb_neq. }
  exists w1, (destroyed w1 el parent).
  split; [exact (initialize_fresh_run el n1 n2 n3 n4 w Ht Ho Q1 Q2 Q3 Q4)|].
  split; [exact D|].
  unfold destroyed, w1, initialized_with. simpl. rewrite Hh.
  repeat split. apply In_app_singleton.
Qed.

Lemma destroy_before_first_frame_witness :
  exists w1 w2,
    initialize (Some 1) world0 = (Return tt, w1) /\
    destroy w1 = (Return tt, w2) /\
    In 1 (pendingFrames (host w2)).
Proof.
  assert (Ht : targetEl (viewer world0) = None) by reflexivity.
  assert (Ho : orbitControls (viewer world0) <> None) by discriminate.
  assert (Hh : reqAnimationFrameHandle (viewer world0) = None) by reflexivity.
  assert (Q1 : querySelector (host world0) 1 "input[name=opacity]" = Some 2)
    by reflexivity.
  assert (Q2 : querySelector (host world0) 1 "input[name=size]" = Some 3)
    by reflexivity.
  assert (Q3 : querySelector (host world0) 1 "select[name=layers]" = Some 5)
    by reflexivity.
  assert (Q4 : querySelector (host world0) 1 "select" = Some 4) by reflexivity.
  assert (Hp : parentNode (host world0) 1 = Some 0) by reflexivity.
  assert (Hd : 1 <> domElement (viewer world0)) by discriminate.
  destruct (destroy_before_first_frame 1 2 3 5 4 0 world0
              Ht Ho Hh Q1 Q2 Q3 Q4 Hp Hd) as (w1 & w2 & A & B & C & _).
  exists w1, w2. split; [exact A|]. split; [exact B | exact C].
Defined.

(* ================================================================= *)
(** ** More on the frame loop *)

(** X13: a frame on released camera controls.  With a previous time recorded
    and the camera controls released, [loop] requests the next frame,
    stores its handle, records the time and then fails with a
    [TypeError]; that request is the only call it makes.  The state it
    leaves has again a previous time and released controls, so every
    later frame fails in the same way and requests the next one. *)
Theorem loop_controls_released (time t0 : JS.number) (w : World) :
  prevTime (viewer w) = Some t0 ->
  orbitControls (viewer w) = None ->
  let w' := run (loop time) w in
  outcome (loop time) w = Throw JS.TypeError /\
  calls w' = calls w ++ [RequestAnimationFrame (nextFrame (host w))] /\
  pendingFrames (host w') = pendingFrames (host w) ++ [nextFrame (host w)] /\
  reqAnimationFrameHandle (viewer w') = Some (nextFrame (host w)) /\
  prevTime (viewer w') = Some time /\
  orbitControls (viewer w') = None.
Proof.
  intros Hp Ho. world w. simpl in *. subst pt o.
  repeat split.
Qed.

Lemma loop_controls_released_witness :
  outcome (loop (JS.Finite 16%Q)) destroyed_early = Throw JS.TypeError /\
  pendingFrames (host (run (loop (JS.Finite 16%Q)) destroyed_early)) = [2; 3] /\
  outcome (loop (JS.Finite 32%Q)) (run (loop (JS.Finite 16%Q)) destroyed_early)
    = Throw JS.TypeError.
Proof.
  assert (Hp : prevTime (viewer destroyed_early) = Some (JS.Finite 0%Q))
    by (vm_compute; reflexivity).
  assert (Ho : orbitControls (viewer destroyed_early) = None)
    by (vm_compute; reflexivity).
  destruct (loop_controls_released (JS.Finite 16%Q) (JS.Finite 0%Q)
              destroyed_early Hp Ho) as (A & _ & B & _ & C & D).
  destruct (loop_controls_released (JS.Finite 32%Q) (JS.Finite 16%Q)
              _ C D) as (E & _).
  split; [exact A|]. split; [rewrite B; vm_compute; reflexivity | exact E].
Defined.

(** X14: two frames in a row.  With the camera controls present, whatever
    time was recorded before, a frame at [t0] followed by a frame at [t1]
    makes the second one update with the delta [t1 - t0] and render: the
    delta never reaches back beyond the previous frame, and the list the
    point-cloud library is given is the current one. *)
Theorem loop_twice (t0 t1 : JS.number) (w : World) :
  orbitControls (viewer w) <> None ->
  let w1 := run (loop t0) w in
  let w2 := run (loop t1) w1 in
  outcome (loop t0) w = Return tt /\
  outcome (loop t1) w1 = Return tt /\
  calls w2 = calls w1 ++
    [RequestAnimationFrame (S (nextFrame (host w))); ControlsUpdate;
     ViewerUpdate (JS.sub t1 t0); ControlsUpdate;
     PotreeUpdatePointClouds (pointClouds (viewer w));
     ViewerRender; RendererClear; RendererRender] /\
  pendingFrames (host w2) =
    pendingFrames (host w) ++ [nextFrame (host w); S (nextFrame (host w))] /\
  reqAnimationFrameHandle (viewer w2) = Some (S (nextFrame (host w))).
Proof.
  intros Ho. world w. simpl in *. destruct o as [c0|]; [|congruence].
  unfold run, outcome, loop.
  destruct pt as [tp|]; simpl; rewrite <- !app_assoc; repeat split.
Qed.

Lemma loop_twice_witness :
  calls (run (loop (JS.Finite (33 # 2)%Q)) (run (loop (JS.Finite 0%Q)) loaded))
    = calls (run (loop (JS.Finite 0%Q)) loaded) ++
      [RequestAnimationFrame 3; ControlsUpdate;
       ViewerUpdate (JS.Finite (33 # 2)%Q); ControlsUpdate;
       PotreeUpdatePointClouds [10; 11];
       ViewerRender; RendererClear; RendererRender].
Proof.
  assert (Ho : orbitControls (viewer loaded) <> None)
    by (vm_compute; discriminate).
  destruct (loop_twice (JS.Finite 0%Q) (JS.Finite (33 # 2)%Q) loaded Ho)
    as (_ & _ & A & _).
  exact A.
Defined.

(** X12: a [destroy] after a frame stops the loop.  When the frame under the
    only pending handle comes due and [loop] runs, a [destroy] that then
    completes cancels the frame [loop] requested: no frame is pending any
    more, so [loop] is not called again. *)
Theorem destroy_after_frame (h : nat) (time : JS.number) (w w2 : World) :
  pendingFrames (host w) = [h] ->
  destroy (run (animationFrame h time) w) = (Return tt, w2) ->
  pendingFrames (host w2) = [] /\
  calls w2 = calls (run (animationFrame h time) w)
             ++ [CancelAnimationFrame (nextFrame (host w))].
Proof.
  intros Hp Hd. apply destroy_returns in Hd.
  destruct Hd as (el & parent & _ & _ & _ & _ & ->).
  world w. simpl in Hp. subst pf.
  unfold destroyed, run, animationFrame, loop, bind, get.
  simpl. rewrite Nat.eqb_refl. simpl.
  destruct pt as [t0|]; [destruct o|]; simpl;
    repeat (rewrite Nat.eqb_refl; simpl); split; reflexivity.
Qed.

Lemma destroy_after_frame_witness :
  exists w2,
    pendingFrames (host initialized) = [1] /\
    destroy (run (animationFrame 1 (JS.Finite 0%Q)) initialized) = (Return tt, w2) /\
    pendingFrames (host w2) = [].
Proof.
  assert (Hp : pendingFrames (host initialized) = [1])
    by (vm_compute; reflexivity).
  pose (w1 := run (animationFrame 1 (JS.Finite 0%Q)) initialized).
  assert (Hd : destroy w1 = (Return tt, destroyed w1 1 0)).
  { apply destroy_returns. exists 1, 0.
    repeat match goal with |- _ /\ _ => split end;
      try reflexivity; vm_compute; try reflexivity; discriminate. }
  destruct (destroy_after_frame 1 (JS.Finite 0%Q) initialized _ Hp Hd) as [A _].
  exists (destroyed w1 1 0). split; [exact Hp|]. split; [exact Hd | exact A].
Defined.

(* ================================================================= *)
(** ** More on loading *)

(** X15: loads are independent and nothing is deduplicated.  Two calls of
    [load], also with the same arguments, give two promises; when the
    loader resolves the first with [a] and then the second with [b], both
    handles are added to the scene and appended to the list in the order
    of resolution, and both are in RGB mode.  This holds when [a] and [b]
    are the same handle too: it is then listed twice. *)
Theorem load_twice (fileName baseUrl : string) (a b : PointCloudOctree)
  (w0 w : World) :
  exists p1 p2 w1 w2,
    load fileName baseUrl w0 = (Return p1, w1) /\
    load fileName baseUrl w1 = (Return p2, w2) /\
    calls w2 = calls w0 ++
      [PotreeLoadPointCloud fileName (fun url => baseUrl ++ url)%string;
       PotreeLoadPointCloud fileName (fun url => baseUrl ++ url)%string] /\
    let w' := run (p2 (Fulfilled b)) (run (p1 (Fulfilled a)) w) in
    pointClouds (viewer w') = pointClouds (viewer w) ++ [a; b] /\
    calls w' = calls w ++ [SceneAdd a; SceneAdd b] /\
    pointColorType (materials w' a) = RGB /\
    pointColorType (materials w' b) = RGB.
Proof.
  exists load_promise, load_promise. eexists. eexists.
  split; [apply load_call|]. split; [apply load_call|].
  split; [simpl; now rewrite <- app_assoc|].
  unfold run. rewrite !load_promise_fulfilled. unfold run.
  rewrite !load_onFulfilled_run. simpl.
  rewrite <- !app_assoc, !Nat.eqb_refl. simpl.
  repeat split. now destruct (Nat.eqb a b).
Qed.

(* ================================================================= *)
(** ** What each method leaves alone *)

Lemma initialize_keeps (arg : option Node) (w : World) :
  pointClouds (viewer (run (initialize arg) w)) = pointClouds (viewer w) /\
  materials (run (initialize arg) w) = materials w /\
  orbitControls (viewer (run (initialize arg) w)) = orbitControls (viewer w) /\
  prevTime (viewer (run (initialize arg) w)) = prevTime (viewer w) /\
  reqAnimationFrameHandle (viewer (run (initialize arg) w))
    = reqAnimationFrameHandle (viewer w).
Proof.
  world w. unfold run, initialize. simpl.
  destruct t as [el0|]; [repeat split|].
  destruct arg as [el|]; [|repeat split].
  simpl. unfold orbitControls_set, listen, bind, this, deref, get. simpl.
  destruct o; simpl; [|repeat split].
  unfold window_addEventListener, addEventListener, browser, modify. simpl.
  repeat match goal with
  | |- context [qs el ?s] => destruct (qs el s); simpl; [|repeat split]
  | |- context [if ?b then _ else _] => destruct b; simpl
  end; repeat split.
Qed.

Lemma destroy_keeps_materials (w : World) :
  materials (run destroy w) = materials w.
Proof.
  world w. unfold run, destroy, bind, this, deref. simpl.
  destruct t as [el|]; simpl; [|reflexivity].
  unfold removeChild, bind, get. simpl.
  destruct (pn d) as [p|]; simpl; [|reflexivity].
  destruct (Nat.eqb p el); simpl; [|reflexivity].
  destruct (Nat.eqb el d); simpl.
  - reflexivity.
  - destruct (pn el); simpl; [|reflexivity].
    destruct rh; reflexivity.
Qed.

(** X16: the list of point clouds changes in two places only.  [initialize],
    [loop], [update], [render], [resize] and the four handlers leave it
    as it is, whether they return or throw; only the success
    continuation of [load] (which appends) and [destroy] (which empties
    it) assign it. *)
Theorem pointClouds_kept (arg : option Node) (time : JS.number) (e : Event)
  (w : World) :
  pointClouds (viewer (run (initialize arg) w)) = pointClouds (viewer w) /\
  pointClouds (viewer (run (loop time) w)) = pointClouds (viewer w) /\
  pointClouds (viewer (run (update time) w)) = pointClouds (viewer w) /\
  pointClouds (viewer (run render w)) = pointClouds (viewer w) /\
  pointClouds (viewer (run resize w)) = pointClouds (viewer w) /\
  pointClouds (viewer (run (configPointsShape e) w)) = pointClouds (viewer w) /\
  pointClouds (viewer (run (changeLayer e) w)) = pointClouds (viewer w) /\
  pointClouds (viewer (run (changePointsOpacity e) w)) = pointClouds (viewer w) /\
  pointClouds (viewer (run (changePointsSize e) w)) = pointClouds (viewer w).
Proof.
  split; [apply initialize_keeps|].
  split.
  { world w. unfold run, loop. simpl.
    destruct pt; [destruct o|]; reflexivity. }
  split.
  { world w. unfold run, update. simpl. destruct o; reflexivity. }
  split; [reflexivity|].
  split.
  { world w. unfold run, resize. simpl. destruct t; reflexivity. }
  split.
  { destruct (configPointsShape_assigns e) as (f & _ & H).
    destruct (H w) as (_ & -> & _). reflexivity. }
  split.
  { destruct (changeLayer_assigns e) as (f & _ & H).
    destruct (H w) as (_ & -> & _). reflexivity. }
  split.
  { destruct (changePointsOpacity_assigns e) as (f & _ & H).
    destruct (H w) as (_ & -> & _). reflexivity. }
  destruct (changePointsSize_assigns e) as (f & _ & H).
  destruct (H w) as (_ & -> & _). reflexivity.
Qed.

(** X17: the materials change in two places only.  [initialize], [destroy],
    [loop], [update], [render] and [resize] never assign a material
    property, whether they return or throw; only the four handlers and
    the success continuation of [load] do. *)
Theorem materials_kept (arg : option Node) (time : JS.number) (w : World) :
  materials (run (initialize arg) w) = materials w /\
  materials (run destroy w) = materials w /\
  materials (run (loop time) w) = materials w /\
  materials (run (update time) w) = materials w /\
  materials (run render w) = materials w /\
  materials (run resize w) = materials w.
Proof.
  split; [apply initialize_keeps|].
  split; [apply destroy_keeps_materials|].
  split.
  { world w. unfold run, loop. simpl.
    destruct pt; [destruct o|]; reflexivity. }
  split.
  { world w. unfold run, update. simpl. destruct o; reflexivity. }
  split; [reflexivity|].
  world w. unfold run, resize. simpl. destruct t; reflexivity.
Qed.

(* ================================================================= *)
(** ** Blank input to the numeric handlers *)

Lemma dropWhile_all (p : ascii -> bool) (cs : list ascii) :
  forallb p cs = true -> JS.dropWhile p cs = [].
Proof.
  induction cs as [|c cs IH]; simpl; [reflexivity|].
  destruct (p c); simpl; [exact IH | discriminate].
Qed.

Lemma Number_blank_string (v : string) :
  forallb JS.isStrWhiteSpaceChar (list_ascii_of_string v) = true ->
  JS.Number v = JS.Finite 0%Q.
Proof.
  intros H. unfold JS.Number, JS.trim.
  rewrite (dropWhile_all _ _ H). reflexivity.
Qed.

(** X5: the test on the raw string excludes the empty string only.  A string
    that is not empty and consists of white space alone is the number 0
    for [Number], so both handlers accept it, and that blank string
    becomes the opacity (respectively the size) of every point cloud of
    the list. *)
Theorem blank_input_accepted (e : Event) (w : World) :
  value (target e) <> ""%string ->
  forallb JS.isStrWhiteSpaceChar (list_ascii_of_string (value (target e))) = true ->
  JS.Number (value (target e)) = JS.Finite 0%Q /\
  forall p, In p (pointClouds (viewer w)) ->
    opacity (materials (run (changePointsOpacity e) w) p)
      = JS.Str (value (target e)) /\
    size (materials (run (changePointsSize e) w) p)
      = JS.Str (value (target e)).
Proof.
  intros Hne Hws. pose proof (Number_blank_string _ Hws) as HN.
  split; [exact HN|]. intros p Hp.
  assert (G : negb (JS.isNaN (JS.Number (value (target e))))
              && negb (String.eqb (value (target e)) "") = true).
  { apply numeric_guard. rewrite HN. split; [reflexivity | exact Hne]. }
  unfold changePointsOpacity, changePointsSize. rewrite G.
  destruct (pointClouds_forEach_spec (set_opacity (JS.Str (value (target e))))
              (set_opacity_idem (JS.Str (value (target e)))) w)
    as (_ & _ & _ & _ & Hin & _).
  destruct (pointClouds_forEach_spec (set_size (JS.Str (value (target e))))
              (set_size_idem (JS.Str (value (target e)))) w)
    as (_ & _ & _ & _ & Hin' & _).
  rewrite (Hin p Hp), (Hin' p Hp). split; reflexivity.
Qed.

Lemma blank_input_accepted_witness :
  opacity (materials (run (changePointsOpacity (event "  ")) loaded) 10)
    = JS.Str "  " /\
  size (materials (run (changePointsSize (event "  ")) loaded) 11)
    = JS.Str "  ".
Proof.
  assert (Hne : value (target (event "  ")) <> ""%string) by discriminate.
  assert (Hws : forallb JS.isStrWhiteSpaceChar
                  (list_ascii_of_string (value (target (event "  ")))) = true)
    by reflexivity.
  destruct (blank_input_accepted (event "  ") loaded Hne Hws) as [_ H].
  assert (I10 : In 10 (pointClouds (viewer loaded)))
    by (vm_compute; left; reflexivity).
  assert (I11 : In 11 (pointClouds (viewer loaded)))
    by (vm_compute; right; left; reflexivity).
  split; [exact (proj1 (H 10 I10)) | exact (proj2 (H 11 I11))].
Defined.

(* ================================================================= *)
(** ** The entry point *)

(** X18: the chain the entry point builds never rejects.  When [index]
    returns its promise, then whatever the loader does and whenever it
    does it, the promise is fulfilled with [undefined]: after a
    resolution the only effect is the success continuation of [load];
    after a rejection the only effect is that the reason is written to
    the console, and the list of point clouds is untouched. *)
Theorem index_never_rejects (target : option Node) (w w1 : World)
  (p : Promise JS.value) :
  index target w = (Return p, w1) ->
  (forall pco w',
     p (Fulfilled pco) w' =
       (Return (Fulfilled JS.Undefined), run (load_onFulfilled pco) w')) /\
  (forall reason w',
     p (Rejected reason) w' =
       (Return (Fulfilled JS.Undefined),
        {| viewer := viewer w'; host := host w'; materials := materials w';
           calls := calls w' ++ [ConsoleError reason] |})).
Proof.
  unfold index. intros H.
  destruct (initialize target w) as [[u|err] w0] eqn:E.
  - rewrite (@bind_Return _ _ _ _ _ _ _ E) in H.
    rewrite (@bind_Return _ _ _ _ _ _ _ (load_call _ _ w0)) in H.
    injection H as <- _. split; intros; reflexivity.
  - rewrite (@bind_Throw _ _ _ _ _ _ _ E) in H. discriminate H.
Qed.

Lemma index_never_rejects_witness :
  exists p w1,
    index (Some 1) world0 = (Return p, w1) /\
    outcome (p (Fulfilled 10)) w1 = Return (Fulfilled JS.Undefined) /\
    outcome (p (Rejected (JS.Error "NetworkError"))) w1
      = Return (Fulfilled JS.Undefined).
Proof.
  destruct (index (Some 1) world0) as [[p|err] w1] eqn:E.
  - destruct (index_never_rejects (Some 1) world0 w1 p E) as [A B].
    exists p, w1. split; [reflexivity|]. unfold outcome.
    rewrite A, B. split; reflexivity.
  - exfalso. vm_compute in E. discriminate E.
Defined.

(** X19: without a target element the cloud is loaded all the same.  When
    the element is absent, or when [initialize] returns early for any
    other reason, the entry point still calls the loader; with the
    element absent nothing else has happened: no target is set, no
    listener is registered and no frame is requested, so a cloud that
    arrives is listed but never rendered.  When [initialize] fails, the
    entry point fails with the same error and the loader is not
    called. *)
Theorem index_without_target (target : option Node) (w : World) :
  (exists p,
     index None w =
       (Return p,
        {| viewer := viewer w; host := host w; materials := materials w;
           calls := calls w ++
             [PotreeLoadPointCloud "cloud.js"
                (fun url =>
                   "https://cdn.rawgit.com/potree/potree/develop/pointclouds/lion_takanawa/"
                   ++ url)%string] |})) /\
  (forall err w', initialize target w = (Throw err, w') ->
     index target w = (Throw err, w')).
Proof.
  split.
  - eexists. unfold index.
    assert (E : initialize None w = (Return tt, w)).
    { world w. destruct t; reflexivity. }
    rewrite (@bind_Return _ _ _ _ _ _ _ E).
    rewrite (@bind_Return _ _ _ _ _ _ _ (load_call _ _ w)).
    reflexivity.
  - intros err w' E. unfold index. now rewrite (@bind_Throw _ _ _ _ _ _ _ E).
Qed.

Lemma index_without_target_witness :
  exists w',
    initialize (Some 0) world0 = (Throw JS.TypeError, w') /\
    index (Some 0) world0 = (Throw JS.TypeError, w') /\
    calls w' = [ControlsSet "enableDamping"; ControlsSet "dampingFactor";
                ControlsSet "screenSpacePanning"; ControlsSet "minDistance";
                ControlsSet "maxDistance"; ControlsSet "maxPolarAngle";
                CameraSetAspect 0; CameraUpdateProjectionMatrix;
                RendererSetSize 0].
Proof.
  destruct (initialize (Some 0) world0) as [[u|err] w'] eqn:E.
  - exfalso. vm_compute in E. discriminate E.
  - assert (Herr : err = JS.TypeError).
    { apply (f_equal fst) in E. vm_compute in E. now injection E as <-. }
    subst err. exists w'. split; [reflexivity|].
    split; [exact (proj2 (index_without_target (Some 0) world0) _ _ E)|].
    apply (f_equal (fun r => calls (snd r))) in E. cbn [snd] in E.
    rewrite <- E. vm_compute. reflexivity.
Defined.
